(** * api_proxy_helper.py: a shallow embedding and its verified properties

    The program is a command-line bridge to an Ollama server (model
    listing, embeddings, chat) and to a ChromaDB store (similarity query).
    Its four functions and the command handler are embedded below as
    functions over

    - [json], the values that [response.json()] and [json.loads] produce
      and that the functions return (Python [None] is [JNull]);
    - [exn], the instances of [Exception] that the code can meet;
    - [M], an exception monad that also records the calls made to the
      outside world (HTTP requests, store calls, output streams);
    - [Env], the behaviour of that outside world, one oracle per call;
    - the namespace in which the module's global names are looked up
      when a line runs ([module_globals] is the one the source builds).

    Floating-point numbers are binary64 primitive floats, as in CPython. *)

From Stdlib Require Import List String Ascii ZArith Bool Lia Floats.
Import ListNotations.
Open Scope string_scope.

Set Implicit Arguments.
Set Warnings "-register-all,-inexact-float".

(** ** Values *)

(** A decoded JSON value.  The fields of an object are kept in insertion
    order; a decoder yields each key once. *)
Inductive json : Type :=
| JNull
| JBool (b : bool)
| JInt (n : Z)
| JFloat (x : float)
| JStr (s : string)
| JArr (items : list json)
| JObj (fields : list (string * json)).

(** Exceptions, all of them subclasses of [Exception].  [UpstreamError]
    stands for whatever [requests], [chromadb] or [json] raise. *)
Inductive exn : Type :=
| NameError (name : string)
| KeyError (key : string)
| IndexError (msg : string)
| TypeError (msg : string)
| ValueError (msg : string)
| UpstreamError (msg : string).

(** [str(e)]. *)
Definition str_exn (e : exn) : string :=
  match e with
  | NameError name => "name '" ++ name ++ "' is not defined"
  | KeyError key => "'" ++ key ++ "'"
  | IndexError msg | TypeError msg | ValueError msg | UpstreamError msg => msg
  end.

Module Py.

(** The type name CPython prints in its [TypeError] messages. *)
Definition type_name (v : json) : string :=
  match v with
  | JNull => "NoneType"
  | JBool _ => "bool"
  | JInt _ => "int"
  | JFloat _ => "float"
  | JStr _ => "str"
  | JArr _ => "list"
  | JObj _ => "dict"
  end.

(** Truth value of an object, as tested by [if x:] and [not x]. *)
Definition truthy (v : json) : bool :=
  match v with
  | JNull => false
  | JBool b => b
  | JInt n => negb (n =? 0)%Z
  | JFloat x => negb (PrimFloat.eqb x 0%float)
  | JStr s => negb (String.eqb s "")
  | JArr items => match items with [] => false | _ :: _ => true end
  | JObj fields => match fields with [] => false | _ :: _ => true end
  end.

Fixpoint lookup (key : string) (fields : list (string * json)) : option json :=
  match fields with
  | [] => None
  | (k, v) :: rest => if String.eqb k key then Some v else lookup key rest
  end.

Definition is_str (key : string) (v : json) : bool :=
  match v with
  | JStr s => String.eqb s key
  | _ => false
  end.

Definition is_substring (needle hay : string) : bool :=
  match String.index 0 needle hay with
  | Some _ => true
  | None => false
  end.

(** [key in v] for a string [key]: key membership on a dict, element
    membership on a list, substring test on a string, [TypeError] on
    the rest. *)
Definition contains (key : string) (v : json) : exn + bool :=
  match v with
  | JObj fields =>
      inr (match lookup key fields with Some _ => true | None => false end)
  | JArr items => inr (existsb (is_str key) items)
  | JStr s => inr (is_substring key s)
  | _ => inl (TypeError ("argument of type '" ++ type_name v ++ "' is not iterable"))
  end.

(** [v[key]] for a string [key]. *)
Definition getitem (v : json) (key : string) : exn + json :=
  match v with
  | JObj fields =>
      match lookup key fields with
      | Some x => inr x
      | None => inl (KeyError key)
      end
  | JArr _ => inl (TypeError "list indices must be integers or slices, not str")
  | JStr _ => inl (TypeError "string indices must be integers, not 'str'")
  | _ => inl (TypeError ("'" ++ type_name v ++ "' object is not subscriptable"))
  end.

Fixpoint chars (s : string) : list json :=
  match s with
  | EmptyString => []
  | String c rest => JStr (String c EmptyString) :: chars rest
  end.

(** The items a [for] loop or a comprehension draws from [v]. *)
Definition iterate (v : json) : exn + list json :=
  match v with
  | JArr items => inr items
  | JObj fields => inr (map (fun kv => JStr (fst kv)) fields)
  | JStr s => inr (chars s)
  | _ => inl (TypeError ("'" ++ type_name v ++ "' object is not iterable"))
  end.

(** [len(v)]. *)
Definition len (v : json) : exn + Z :=
  match v with
  | JArr items => inr (Z.of_nat (List.length items))
  | JObj fields => inr (Z.of_nat (List.length fields))
  | JStr s => inr (Z.of_nat (String.length s))
  | _ => inl (TypeError ("object of type '" ++ type_name v ++ "' has no len()"))
  end.

(** [xs[i]] on a list, for a natural index. *)
Definition list_getitem {A} (xs : list A) (i : nat) : exn + A :=
  match nth_error xs i with
  | Some x => inr x
  | None => inl (IndexError "list index out of range")
  end.

(** [zip(xs, ys, zs)]: stops with the shortest argument. *)
Fixpoint zip3 {A B C} (xs : list A) (ys : list B) (zs : list C)
  : list (A * B * C) :=
  match xs, ys, zs with
  | x :: xs', y :: ys', z :: zs' => (x, y, z) :: zip3 xs' ys' zs'
  | _, _, _ => []
  end.

Definition lower_ascii (c : ascii) : ascii :=
  let n := nat_of_ascii c in
  if andb (65 <=? n)%nat (n <=? 90)%nat then ascii_of_nat (n + 32) else c.

(** [s.lower()], on the ASCII letters. *)
Fixpoint lower (s : string) : string :=
  match s with
  | EmptyString => EmptyString
  | String c rest => String (lower_ascii c) (lower rest)
  end.

End Py.

(** ** The outside world *)

(** [chromadb.config.Settings], as far as the program sets it. *)
Record Settings : Type := { anonymized_telemetry : bool }.

(** What [collection.query] returns: each field is [None] or one inner
    list per query embedding. *)
Record QueryResult : Type := {
  documents : option (list (list json));
  metadatas : option (list (list json));
  distances : option (list (list float))
}.

Record Collection : Type := {
  coll_query : list json -> Z -> list string -> exn + QueryResult
}.

Record Client : Type := {
  get_collection : string -> exn + Collection
}.

(** A [requests.Response]: [raise_for_status()] raises or not, and
    [json()] decodes the body or raises. *)
Record Response : Type := {
  raise_for_status : option exn;
  resp_json : exn + json
}.

Record Env : Type := {
  requests_get : string -> exn + Response;
  requests_post : string -> json -> exn + Response;
  PersistentClient : string -> Settings -> exn + Client;
  json_loads : string -> exn + json;
  py_int : string -> exn + Z;
  py_float : string -> exn + float
}.

(** The calls the program makes, in the order it makes them. *)
Inductive event : Type :=
| EvGet (url : string)
| EvPost (url : string) (body : json)
| EvPersistentClient (path : string) (settings : Settings)
| EvGetCollection (name : string)
| EvQuery (query_embeddings : list json) (n_results : Z) (include : list string)
| EvStderr (line : string)
| EvStderrRepr (prefix : string) (value : json)
| EvStdout (value : json).

Definition is_store_event (ev : event) : bool :=
  match ev with
  | EvPersistentClient _ _ | EvGetCollection _ | EvQuery _ _ _ => true
  | _ => false
  end.

(** ** The monad: a result or an exception, and the calls made so far *)

Inductive outcome (A : Type) : Type :=
| Returned (a : A)
| Raised (e : exn).
Arguments Returned {A} a.
Arguments Raised {A} e.

Definition M (A : Type) : Type := (outcome A * list event)%type.

Definition ret {A} (a : A) : M A := (Returned a, []).

Definition raise {A} (e : exn) : M A := (Raised e, []).

Definition bind {A B} (m : M A) (f : A -> M B) : M B :=
  match m with
  | (Returned a, t) => let (r, t') := f a in (r, (t ++ t')%list)
  | (Raised e, t) => (Raised e, t)
  end.

Definition emit (ev : event) : M unit := (Returned tt, [ev]).

Definition lift {A} (r : exn + A) : M A :=
  match r with
  | inl e => raise e
  | inr a => ret a
  end.

(** [try: m  except Exception as e: handler e]. *)
Definition try_except {A} (m : M A) (handler : exn -> M A) : M A :=
  match m with
  | (Raised e, t) => let (r, t') := handler e in (r, (t ++ t')%list)
  | ok => ok
  end.

Notation "x <- m ;; k" := (bind m (fun x => k))
  (at level 61, m at next level, right associativity).
Notation "m ;;; k" := (bind m (fun _ => k))
  (at level 61, right associativity).

Definition result_of {A} (m : M A) : outcome A := fst m.
Definition trace_of {A} (m : M A) : list event := snd m.

(** A call to the outside world: recorded, then answered by the oracle. *)
Definition call {A} (ev : event) (answer : exn + A) : M A :=
  emit ev ;;; lift answer.

(** [response.raise_for_status()]. *)
Definition check_status (r : Response) : M unit :=
  match raise_for_status r with
  | Some e => raise e
  | None => ret tt
  end.

(** ** The module namespace *)

(** The names the module binds: its five imports and its four functions.
    A global name is resolved when the line that uses it runs, and an
    unbound one raises [NameError] there.  The functions below take the
    namespace as an argument and resolve through it the two global names
    of the line that opens the store; the other globals they use are
    among [module_globals] or are builtins. *)
Definition module_globals : list string :=
  ["chromadb"; "json"; "requests"; "sys"; "os";
   "get_models_from_ollama"; "get_embedding_from_ollama"; "query_chroma";
   "send_chat_to_ollama"].

Definition bound (G : list string) (name : string) : bool :=
  existsb (String.eqb name) G.

Definition resolve (G : list string) (name : string) : M unit :=
  if bound G name then ret tt else raise (NameError name).

(** ** The four operations *)

Definition error_payload (msg : string) : json := JObj [("error", JStr msg)].

(** A list comprehension whose element expression may raise: the first
    exception ends it. *)
Fixpoint comprehension {A B} (f : A -> exn + B) (xs : list A) : exn + list B :=
  match xs with
  | [] => inr []
  | x :: rest =>
      match f x with
      | inl e => inl e
      | inr y =>
          match comprehension f rest with
          | inl e => inl e
          | inr ys => inr (y :: ys)
          end
      end
  end.

Definition get_models_from_ollama (env : Env) (base_url : string)
    (include_details : bool) : M json :=
  let url := base_url ++ "/api/tags" in
  try_except
    (response <- call (EvGet url) (requests_get env url) ;;
     check_status response ;;;
     result <- lift (resp_json response) ;;
     has_models <- lift (Py.contains "models" result) ;;
     if has_models then
       models <- lift (Py.getitem result "models") ;;
       if negb include_details then
         items <- lift (Py.iterate models) ;;
         model_names <-
           lift (comprehension (fun model => Py.getitem model "name") items) ;;
         ret (JObj [("models", JArr model_names);
                    ("count", JInt (Z.of_nat (List.length model_names)))])
       else
         count <- lift (Py.len models) ;;
         ret (JObj [("models", models); ("count", JInt count)])
     else
       emit (EvStderrRepr "Error: Unexpected response format - " result) ;;;
       ret (error_payload "Unexpected response format"))
    (fun e =>
       emit (EvStderr ("Error getting models: " ++ str_exn e)) ;;;
       ret (error_payload ("Error getting models: " ++ str_exn e))).

(** Returns the embedding, or [JNull] for Python's [None]. *)
Definition get_embedding_from_ollama (env : Env) (text model base_url : string)
    : M json :=
  let url := base_url ++ "/api/embeddings" in
  let data := JObj [("model", JStr model); ("prompt", JStr text)] in
  try_except
    (response <- call (EvPost url data) (requests_post env url data) ;;
     check_status response ;;;
     result <- lift (resp_json response) ;;
     has_embedding <- lift (Py.contains "embedding" result) ;;
     if has_embedding then
       lift (Py.getitem result "embedding")
     else
       emit (EvStderrRepr "Error: Unexpected response format - " result) ;;;
       ret JNull)
    (fun e =>
       emit (EvStderr ("Error getting embedding: " ++ str_exn e)) ;;;
       ret JNull).

(** [1 - dist]: the integer 1 is converted to a float. *)
Definition similarity_of (dist : float) : float := (1 - dist)%float.

(** [similarity >= threshold] on floats. *)
Definition ge_float (similarity threshold : float) : bool :=
  (threshold <=? similarity)%float.

Definition result_item (doc metadata : json) (similarity : float) : json :=
  JObj [("document", doc); ("metadata", metadata);
        ("similarity", JFloat similarity)].

(** One turn of the loop over [zip(documents, metadatas, similarities)];
    the index that [enumerate] supplies is not used. *)
Definition loop_body (threshold : float) (processed_results : list json)
    (x : json * json * float) : list json :=
  let '(doc, metadata, similarity) := x in
  if ge_float similarity threshold
  then (processed_results ++ [result_item doc metadata similarity])%list
  else processed_results.

(** [field[0]] on a field of the query result. *)
Definition first_list {A} (field : option (list (list A))) : exn + list A :=
  match field with
  | None => inl (TypeError "'NoneType' object is not subscriptable")
  | Some lists => Py.list_getitem lists 0
  end.

(** [results["distances"] and results["distances"][0]], as a condition. *)
Definition has_distances (results : QueryResult) : bool :=
  match distances results with
  | Some ((_ :: _) :: _) => true
  | _ => false
  end.

Definition success_payload (processed_results : list json) : json :=
  JObj [("results", JArr processed_results);
        ("count", JInt (Z.of_nat (List.length processed_results)))].

(** The part of [query_chroma] that follows the search. *)
Definition process_results (results : QueryResult) (threshold : float) : M json :=
  processed_results <-
    (if has_distances results then
       dists <- lift (first_list (distances results)) ;;
       let similarities := map similarity_of dists in
       docs <- lift (first_list (documents results)) ;;
       metas <- lift (first_list (metadatas results)) ;;
       ret (fold_left (loop_body threshold) (Py.zip3 docs metas similarities) [])
     else ret []) ;;
  ret (success_payload processed_results).

Definition query_include : list string := ["documents"; "metadatas"; "distances"].

(** The line that opens the store evaluates, in this order, [chromadb],
    its attribute [PersistentClient], [db_path], and then [Settings]. *)
Definition query_chroma (G : list string) (env : Env)
    (query_text db_path embedding_model base_url : string)
    (n_results : Z) (threshold : float) : M json :=
  try_except
    (query_embedding <-
       get_embedding_from_ollama env query_text embedding_model base_url ;;
     if negb (Py.truthy query_embedding) then
       ret (error_payload "Failed to get embedding for query")
     else
       resolve G "chromadb" ;;;
       resolve G "Settings" ;;;
       let settings := {| anonymized_telemetry := false |} in
       client <- call (EvPersistentClient db_path settings)
                      (PersistentClient env db_path settings) ;;
       found <-
         try_except
           (collection <- call (EvGetCollection "document_collection")
                               (get_collection client "document_collection") ;;
            ret (inr collection))
           (fun e => ret (inl (error_payload ("Collection not found: " ++ str_exn e)))) ;;
       match found with
       | inl early => ret early
       | inr collection =>
           results <- call (EvQuery [query_embedding] n_results query_include)
                           (coll_query collection [query_embedding] n_results
                                       query_include) ;;
           process_results results threshold
       end)
    (fun e => ret (error_payload ("Error querying ChromaDB: " ++ str_exn e))).

(** The defaults of the signature, used by a call that leaves the last
    two arguments out. *)
Definition default_n_results : Z := 5.
Definition default_threshold : float := 0.75%float.

Definition query_chroma_call (G : list string) (env : Env)
    (query_text db_path embedding_model base_url : string)
    (n_results : option Z) (threshold : option float) : M json :=
  query_chroma G env query_text db_path embedding_model base_url
    (match n_results with Some n => n | None => default_n_results end)
    (match threshold with Some t => t | None => default_threshold end).

Definition chat_options : json :=
  JObj [("temperature", JFloat 0.7%float); ("num_ctx", JInt 16384)].

(** The request body of the chat call: [data["context"] = context] adds
    the key after the three of the literal. *)
Definition chat_request (messages : json) (model : string) (context : json) : json :=
  let data := [("model", JStr model); ("messages", messages);
               ("options", chat_options)] in
  if Py.truthy context
  then JObj (data ++ [("context", context)])%list
  else JObj data.

Definition send_chat_to_ollama (env : Env) (messages : json) (model : string)
    (context : json) (base_url : string) : M json :=
  try_except
    (let url := base_url ++ "/api/chat" in
     let data := chat_request messages model context in
     response <- call (EvPost url data) (requests_post env url data) ;;
     check_status response ;;;
     lift (resp_json response))
    (fun e => ret (error_payload ("Error sending chat to Ollama: " ++ str_exn e))).

(** ** The command handler *)

(** [sys.argv[i]]. *)
Definition argv_at (argv : list string) (i : nat) : M string :=
  lift (Py.list_getitem argv i).

Definition main (G : list string) (env : Env) (argv : list string) : M unit :=
  command <- argv_at argv 1 ;;
  if String.eqb command "query" then
    query_text <- argv_at argv 2 ;;
    db_path <- argv_at argv 3 ;;
    embedding_model <- argv_at argv 4 ;;
    base_url <- argv_at argv 5 ;;
    arg6 <- argv_at argv 6 ;;
    n_results <- lift (py_int env arg6) ;;
    arg7 <- argv_at argv 7 ;;
    threshold <- lift (py_float env arg7) ;;
    result <- query_chroma G env query_text db_path embedding_model base_url
                           n_results threshold ;;
    emit (EvStdout result)
  else if String.eqb command "chat" then
    messages_json <- argv_at argv 2 ;;
    model <- argv_at argv 3 ;;
    context_json <-
      (if (4 <? List.length argv)%nat then
         arg4 <- argv_at argv 4 ;;
         ret (if negb (String.eqb arg4 "null") then Some arg4 else None)
       else ret None) ;;
    base_url <- argv_at argv 5 ;;
    messages <- lift (json_loads env messages_json) ;;
    context <-
      match context_json with
      | Some text =>
          if negb (String.eqb text "") then lift (json_loads env text)
          else ret JNull
      | None => ret JNull
      end ;;
    result <- send_chat_to_ollama env messages model context base_url ;;
    emit (EvStdout result)
  else if String.eqb command "models" then
    base_url <- argv_at argv 2 ;;
    include_details <-
      (if (3 <? List.length argv)%nat then
         arg3 <- argv_at argv 3 ;;
         ret (String.eqb (Py.lower arg3) "true")
       else ret false) ;;
    result <- get_models_from_ollama env base_url include_details ;;
    emit (EvStdout result)
  else ret tt.

(** ** Shapes of the results, in the words of the specification *)

(** [{ error: string }]. *)
Definition is_error_result (v : json) : Prop :=
  exists msg, v = JObj [("error", JStr msg)].

(** [{ results: list, count: int }]. *)
Definition is_query_success (v : json) : Prop :=
  exists items count, v = JObj [("results", JArr items); ("count", JInt count)].

(** A response "has the field" when it is an object with that key. *)
Definition has_field (key : string) (body : json) : bool :=
  match body with
  | JObj fields => match Py.lookup key fields with Some _ => true | None => false end
  | _ => false
  end.

(** A prior context that is "provided, non-null and non-empty": anything
    but null and the empty string, array and object. *)
Definition context_provided (context : json) : bool :=
  match context with
  | JNull | JStr EmptyString | JArr [] | JObj [] => false
  | _ => true
  end.

(** The scalars that Python also counts as false: [False], [0], [0.0]. *)
Definition false_or_zero (context : json) : bool :=
  match context with
  | JBool b => negb b
  | JInt n => (n =? 0)%Z
  | JFloat x => PrimFloat.eqb x 0%float
  | _ => false
  end.

Definition no_store_call (trace : list event) : Prop :=
  Forall (fun ev => is_store_event ev = false) trace.

(** ** Concrete worlds, used to run the embedding *)

Module Examples.

Definition ok (body : json) : exn + Response :=
  inr {| raise_for_status := None; resp_json := inr body |}.

Definition store (lookup : exn + Collection) : string -> Settings -> exn + Client :=
  fun _ _ => inr {| get_collection := fun _ => lookup |}.

Definition collection (answer : exn + QueryResult) : Collection :=
  {| coll_query := fun _ _ _ => answer |}.

(** The builtins are not exercised by the examples that use this. *)
Definition world (get : exn + Response) (post : exn + Response)
    (client : string -> Settings -> exn + Client) : Env :=
  {| requests_get := fun _ => get;
     requests_post := fun _ _ => post;
     PersistentClient := client;
     json_loads := fun _ => inl (ValueError "Expecting value");
     py_int := fun _ => inl (ValueError "invalid literal for int()");
     py_float := fun _ => inl (ValueError "could not convert string to float") |}.

Definition unreachable : exn + Response :=
  inl (UpstreamError "Connection refused").

Definition embedding_body : json :=
  JObj [("embedding", JArr [JFloat 0.25%float; JFloat 0.5%float])].

(** Three candidates at distances 0.1, 0.3 and 0.5. *)
Definition three_hits : QueryResult :=
  {| documents := Some [[JStr "a"; JStr "b"; JStr "c"]];
     metadatas := Some [[JObj [("page", JInt 1)]; JObj []; JNull]];
     distances := Some [[0.1%float; 0.3%float; 0.5%float]] |}.

Definition no_hits : QueryResult :=
  {| documents := Some [[]]; metadatas := Some [[]]; distances := Some [[]] |}.

(** The embedder answers and the store holds the collection. *)
Definition healthy (answer : QueryResult) : Env :=
  world unreachable (ok embedding_body) (store (inr (collection (inr answer)))).

(** The embedder answers and the store has no such collection. *)
Definition no_collection : Env :=
  world unreachable (ok embedding_body)
        (store (inl (ValueError "Collection document_collection does not exist."))).

(** The module with [Settings] imported. *)
Definition globals_with_Settings : list string := "Settings" :: module_globals.

Definition tags_body : json :=
  JObj [("models", JArr [JObj [("name", JStr "llama3")];
                         JObj [("name", JStr "mistral")]])].

(** [int] and [float] on the two literals the examples pass. *)
Definition command_line (answer : QueryResult) : Env :=
  {| requests_get := fun _ => unreachable;
     requests_post := fun _ _ => ok embedding_body;
     PersistentClient := store (inr (collection (inr answer)));
     json_loads := fun _ => inl (ValueError "Expecting value");
     py_int := fun text =>
       if String.eqb text "3" then inr 3%Z
       else inl (ValueError "invalid literal for int()");
     py_float := fun text =>
       if String.eqb text "0.8" then inr 0.8%float
       else inl (ValueError "could not convert string to float") |}.

(** Only the embedding endpoint answers. *)
Definition endpoint (post : exn + Response) : Env :=
  world unreachable post (store (inl (ValueError "no store"))).

(** Only the model-list endpoint answers. *)
Definition tags_endpoint (body : json) : Env :=
  world (ok body) unreachable (store (inl (ValueError "no store"))).

Definition bad_status : exn + Response :=
  inr {| raise_for_status := Some (UpstreamError "500 Server Error");
         resp_json := inr embedding_body |}.

Definition bad_body : exn + Response :=
  inr {| raise_for_status := None;
         resp_json := inl (ValueError "Expecting value") |}.

Definition nameless_body : json :=
  JObj [("models", JArr [JObj [("name", JStr "llama3")];
                         JObj [("size", JInt 4)]])].

Definition user_messages : json :=
  JArr [JObj [("role", JStr "user"); ("content", JStr "hi")]].

(** [query "what is rust" /db all-minilm http://localhost:11434 3 0.8]. *)
Definition ask (G : list string) (env : Env) : M json :=
  query_chroma G env "what is rust" "/db" "all-minilm"
               "http://localhost:11434" 3 0.8%float.

End Examples.


(** ** The filter, in the words of the specification *)

(** A candidate is a document, its metadata and its similarity. *)
Definition candidate : Type := (json * json * float)%type.

Definition similarity (x : candidate) : float := snd x.

Definition item_of (x : candidate) : json :=
  result_item (fst (fst x)) (snd (fst x)) (snd x).

(** The candidates that reach the threshold, in the order they came. *)
Definition retained (threshold : float) (candidates : list candidate)
    : list candidate :=
  filter (fun x => (threshold <=? similarity x)%float) candidates.

(** ** The model list and the chat request, in the words of the specification *)

(** [record] is an object whose [name] field holds [name]. *)
Definition has_name (record name : json) : Prop :=
  exists fields, record = JObj fields /\ Py.lookup "name" fields = Some name.

(** The chat request of the specification as amended: model, messages
    and the fixed options, then the context when it is provided and is
    not one of the false scalars. *)
Definition chat_request_spec (messages : json) (model : string) (context : json)
    : json :=
  JObj ([("model", JStr model);
         ("messages", messages);
         ("options", JObj [("temperature", JFloat 0.7%float);
                           ("num_ctx", JInt 16384)])]
        ++ (if andb (context_provided context) (negb (false_or_zero context))
            then [("context", context)] else []))%list.

(** ** Proof steps *)

(** Unfolds the monad and splits on whatever the code branches on next. *)
Ltac unfold_monad :=
  unfold call, emit, lift, check_status, resolve, try_except, bind, ret, raise,
    result_of, trace_of in *.

Ltac branch :=
  match goal with
  | |- context [match ?x with _ => _ end] =>
      match x with
      | context [match _ with _ => _ end] => fail 1
      | _ => destruct x eqn:?
      end
  end.

Ltac run := unfold_monad; cbn; repeat (branch; cbn).

(** Splits a run of the embedder into its value and its calls. *)
Ltac split_embedder :=
  match goal with
  | H : result_of (get_embedding_from_ollama ?env ?q ?m ?u) = Returned ?v |- _ =>
      let sent := fresh "sent" in
      let Hrun := fresh "Hrun" in
      destruct (get_embedding_from_ollama env q m u) as [? sent] eqn:Hrun;
      cbn in H; subst
  end.

(** ** Further vocabulary for the properties of the whole module *)

(** [{ models: ..., count: int }]. *)
Definition is_models_result (v : json) : Prop :=
  exists models count, v = JObj [("models", models); ("count", JInt count)].

(** An HTTP exchange fails with [e]: the request raises, or the status
    check raises, or the body does not decode. *)
Definition request_fails (answer : exn + Response) (e : exn) : Prop :=
  answer = inl e
  \/ (exists r, answer = inr r /\ raise_for_status r = Some e)
  \/ (exists r, answer = inr r /\ raise_for_status r = None
                /\ resp_json r = inl e).

(** An HTTP exchange succeeds with the decoded [body]. *)
Definition request_answers (answer : exn + Response) (body : json) : Prop :=
  exists r, answer = inr r /\ raise_for_status r = None /\ resp_json r = inr body.

(** A line on the error stream. *)
Definition is_diagnostic (ev : event) : bool :=
  match ev with
  | EvStderr _ | EvStderrRepr _ _ => true
  | _ => false
  end.

(** The three calls to the store, in the order of the source. *)
Definition store_calls (db_path : string) (query_embedding : json)
    (n_results : Z) : list event :=
  [EvPersistentClient db_path {| anonymized_telemetry := false |};
   EvGetCollection "document_collection";
   EvQuery [query_embedding] n_results ["documents"; "metadatas"; "distances"]].

(** The commands the handler knows. *)
Definition known_command (command : string) : bool :=
  orb (String.eqb command "query")
      (orb (String.eqb command "chat") (String.eqb command "models")).

(** A run that returns an error object and leaves the store alone. *)
Definition is_error_result_of (run : M json) : Prop :=
  (exists msg, result_of run = Returned (JObj [("error", JStr msg)]))
  /\ no_store_call (trace_of run).

(** Closes a path of the similarity query that made [k] store calls. *)
Ltac stops_after k :=
  eexists; exists k; cbn; rewrite ?app_nil_r, <- ?app_assoc; cbn; eauto.

(** ** Further worlds *)

Module Worlds.

Definition dimension_error : exn :=
  ValueError "Embedding dimension 2 does not match collection dimensionality 384".

(** The embedder answers, the collection is there, the search raises. *)
Definition mismatched : Env :=
  Examples.world Examples.unreachable (Examples.ok Examples.embedding_body)
    (Examples.store (inr (Examples.collection (inl dimension_error)))).

(** The embedder answers and the store cannot be opened. *)
Definition locked : Env :=
  Examples.world Examples.unreachable (Examples.ok Examples.embedding_body)
    (fun _ _ => inl (ValueError "Could not connect to tenant")).

(** One document, two metadatas, three distances. *)
Definition ragged_hits : QueryResult :=
  {| documents := Some [[JStr "a"]];
     metadatas := Some [[JNull; JNull]];
     distances := Some [[0.1%float; 0.2%float; 0.3%float]] |}.

(** Distances without documents. *)
Definition bare_hits : QueryResult :=
  {| documents := None;
     metadatas := Some [[JNull]];
     distances := Some [[0.1%float]] |}.

(** [json.loads] on the two texts the examples pass; the chat endpoint
    answers with a message. *)
Definition chat_line : Env :=
  {| requests_get := fun _ => Examples.unreachable;
     requests_post := fun _ _ =>
       Examples.ok (JObj [("message", JObj [("role", JStr "assistant");
                                            ("content", JStr "hello")])]);
     PersistentClient := Examples.store (inl (ValueError "no store"));
     json_loads := fun text =>
       if String.eqb text "[]" then inr (JArr [])
       else if String.eqb text "[1, 2]" then inr (JArr [JInt 1; JInt 2])
       else inl (ValueError "Expecting value");
     py_int := fun _ => inl (ValueError "invalid literal for int()");
     py_float := fun _ => inl (ValueError "could not convert string to float") |}.

End Worlds.

(** ** Running the monad *)

Lemma bind_ret {A B : Type} (a : A) (f : A -> M B) : bind (ret a) f = f a.
Proof. unfold bind, ret. destruct (f a); reflexivity. Qed.

Lemma bind_raise {A B : Type} (e : exn) (f : A -> M B) :
  bind (raise e) f = raise e.
Proof. reflexivity. Qed.

(** ** The embedder *)

(** The embedder always returns: every exception of its body is handled. *)
Lemma embedder_returns (env : Env) (text model base_url : string) :
  exists v, result_of (get_embedding_from_ollama env text model base_url) = Returned v.
Proof.
  unfold get_embedding_from_ollama. run; eauto.
Qed.

(** It talks to the embedding endpoint and the error stream only. *)
Lemma embedder_no_store_call (env : Env) (text model base_url : string) :
  no_store_call (trace_of (get_embedding_from_ollama env text model base_url)).
Proof.
  unfold get_embedding_from_ollama, no_store_call. run;
    repeat constructor.
Qed.

(** A body without the field never makes the embedder return a value. *)
Lemma contains_without_field (key : string) (body : json) :
  has_field key body = false ->
  Py.contains key body = inr false \/
  (exists e, Py.contains key body = inl e) \/
  (Py.contains key body = inr true /\ exists e, Py.getitem body key = inl e).
Proof.
  destruct body; cbn; intros H; eauto.
  - destruct (Py.is_substring key s); eauto 6.
  - destruct (existsb (Py.is_str key) items); eauto 6.
  - destruct (Py.lookup key fields); [discriminate | eauto].
Qed.

(** C4.  The embedder answers [None] (here [JNull]) on a transport error,
    an HTTP error status, an undecodable body and a body without an
    [embedding] field: it neither raises nor returns an error object.
    On a body that has the field it returns the field's value as it is. *)
Theorem embedder_absent_or_vector (env : Env) (text model base_url : string) :
  let url := base_url ++ "/api/embeddings" in
  let data := JObj [("model", JStr model); ("prompt", JStr text)] in
  let answer := result_of (get_embedding_from_ollama env text model base_url) in
  (forall e, requests_post env url data = inl e -> answer = Returned JNull) /\
  (forall r e,
      requests_post env url data = inr r -> raise_for_status r = Some e ->
      answer = Returned JNull) /\
  (forall r e,
      requests_post env url data = inr r -> raise_for_status r = None ->
      resp_json r = inl e -> answer = Returned JNull) /\
  (forall r body,
      requests_post env url data = inr r -> raise_for_status r = None ->
      resp_json r = inr body -> has_field "embedding" body = false ->
      answer = Returned JNull) /\
  (forall r fields vector,
      requests_post env url data = inr r -> raise_for_status r = None ->
      resp_json r = inr (JObj fields) ->
      Py.lookup "embedding" fields = Some vector ->
      answer = Returned vector).
Proof.
  cbv zeta. unfold get_embedding_from_ollama.
  repeat split.
  - intros e Hpost. rewrite Hpost. reflexivity.
  - intros r e Hpost Hstatus. rewrite Hpost. unfold_monad. cbn.
    rewrite Hstatus. reflexivity.
  - intros r e Hpost Hstatus Hjson. rewrite Hpost. unfold_monad. cbn.
    rewrite Hstatus. cbn. rewrite Hjson. reflexivity.
  - intros r body Hpost Hstatus Hjson Hfield. rewrite Hpost. unfold_monad. cbn.
    rewrite Hstatus. cbn. rewrite Hjson. cbn.
    destruct (contains_without_field "embedding" body Hfield)
      as [Hin | [[e Hin] | [Hin [e Hget]]]];
      rewrite Hin; cbn; [reflexivity | reflexivity |].
    rewrite Hget. reflexivity.
  - intros r fields vector Hpost Hstatus Hjson Hfield. rewrite Hpost.
    unfold_monad. cbn. rewrite Hstatus. cbn. rewrite Hjson. cbn.
    rewrite Hfield. cbn. reflexivity.
Qed.

Lemma embedder_absent_or_vector_witness :
  result_of (get_embedding_from_ollama
               (Examples.endpoint Examples.unreachable) "q" "m" "http://h")
  = Returned JNull /\
  result_of (get_embedding_from_ollama
               (Examples.endpoint Examples.bad_status) "q" "m" "http://h")
  = Returned JNull /\
  result_of (get_embedding_from_ollama
               (Examples.endpoint Examples.bad_body) "q" "m" "http://h")
  = Returned JNull /\
  result_of (get_embedding_from_ollama
               (Examples.endpoint
                  (Examples.ok (JObj [("error", JStr "model not found")])))
               "q" "m" "http://h")
  = Returned JNull /\
  result_of (get_embedding_from_ollama
               (Examples.endpoint (Examples.ok (JArr [JStr "embedding"])))
               "q" "m" "http://h")
  = Returned JNull /\
  result_of (get_embedding_from_ollama
               (Examples.endpoint (Examples.ok Examples.embedding_body))
               "q" "m" "http://h")
  = Returned (JArr [JFloat 0.25%float; JFloat 0.5%float]).
Proof.
  refine (conj _ (conj _ (conj _ (conj _ (conj _ _))))).
  - eapply (proj1 (embedder_absent_or_vector _ "q" "m" "http://h")).
    reflexivity.
  - eapply (proj1 (proj2 (embedder_absent_or_vector _ "q" "m" "http://h")));
      reflexivity.
  - eapply (proj1 (proj2 (proj2 (embedder_absent_or_vector _ "q" "m" "http://h"))));
      reflexivity.
  - eapply (proj1 (proj2 (proj2 (proj2
              (embedder_absent_or_vector _ "q" "m" "http://h")))));
      reflexivity.
  - eapply (proj1 (proj2 (proj2 (proj2
              (embedder_absent_or_vector _ "q" "m" "http://h")))));
      reflexivity.
  - eapply (proj2 (proj2 (proj2 (proj2
              (embedder_absent_or_vector _ "q" "m" "http://h")))));
      reflexivity.
Defined.

(** ** The filter of the similarity query *)

(** The loop appends, in order, the items that reach the threshold. *)
Lemma loop_appends_retained (threshold : float) (xs : list candidate)
    (acc : list json) :
  fold_left (loop_body threshold) xs acc
  = (acc ++ map item_of (retained threshold xs))%list.
Proof.
  revert acc. induction xs as [| [[doc metadata] s] xs IH]; intros acc; cbn.
  - symmetry. apply app_nil_r.
  - rewrite IH. unfold ge_float, similarity. cbn.
    destruct (threshold <=? s)%float; cbn.
    + rewrite <- app_assoc. reflexivity.
    + reflexivity.
Qed.

Lemma zip3_similarities (docs metas : list json) (dists : list float) :
  List.length docs = List.length dists ->
  List.length metas = List.length dists ->
  map similarity (Py.zip3 docs metas (map similarity_of dists))
  = map similarity_of dists.
Proof.
  revert docs metas.
  induction dists as [| d dists IH]; intros [| doc docs] [| meta metas];
    cbn; intros Hd Hm; try discriminate; try reflexivity.
  f_equal. apply IH; congruence.
Qed.

(** What the part after the search computes, whenever the three inner
    lists are there. *)
Lemma process_results_retained (results : QueryResult) (threshold : float)
    (docs metas : list json) (dists : list float)
    (more_docs more_metas : list (list json)) (more_dists : list (list float)) :
  distances results = Some (dists :: more_dists) ->
  documents results = Some (docs :: more_docs) ->
  metadatas results = Some (metas :: more_metas) ->
  process_results results threshold
  = ret (success_payload
           (map item_of
                (retained threshold
                          (Py.zip3 docs metas (map similarity_of dists))))).
Proof.
  intros Hdist Hdocs Hmetas. unfold process_results, has_distances.
  rewrite Hdist. destruct dists as [| d dists].
  - cbn. destruct docs, metas; reflexivity.
  - unfold_monad. cbn. rewrite Hdocs, Hmetas. cbn.
    rewrite loop_appends_retained. reflexivity.
Qed.

(** Without distances the loop does not run. *)
Lemma process_results_no_distances (results : QueryResult) (threshold : float) :
  has_distances results = false ->
  process_results results threshold = ret (success_payload []).
Proof.
  intros H. unfold process_results. rewrite H. reflexivity.
Qed.

(** The part after the search makes no call, and either returns the
    success shape or raises. *)
Lemma process_results_outcome (results : QueryResult) (threshold : float) :
  trace_of (process_results results threshold) = [] /\
  ((exists items,
       result_of (process_results results threshold)
       = Returned (success_payload items)) \/
   (exists e, result_of (process_results results threshold) = Raised e)).
Proof.
  unfold process_results. run; eauto.
Qed.

(** ** The paths through the similarity query *)

Section QueryPaths.

Variables (G : list string) (env : Env).
Variables (query_text db_path embedding_model base_url : string).
Variables (n_results : Z) (threshold : float).
Variables (query_embedding : json) (sent : list event).

Hypothesis embedded :
  get_embedding_from_ollama env query_text embedding_model base_url
  = (Returned query_embedding, sent).

Let run_query : M json :=
  query_chroma G env query_text db_path embedding_model base_url
               n_results threshold.

Let telemetry_off : Settings := {| anonymized_telemetry := false |}.

(** No vector: the function returns at once. *)
Lemma query_without_vector :
  Py.truthy query_embedding = false ->
  run_query = (Returned (error_payload "Failed to get embedding for query"), sent).
Proof.
  intros Hfalsy. unfold run_query, query_chroma. rewrite embedded.
  unfold_monad. rewrite Hfalsy. cbn. rewrite app_nil_r. reflexivity.
Qed.

(** A vector, and [Settings] is not a name of the module: the lookup
    raises before the store is opened, and the outer handler answers. *)
Lemma query_Settings_unbound :
  Py.truthy query_embedding = true ->
  bound G "chromadb" = true ->
  bound G "Settings" = false ->
  run_query
  = (Returned (error_payload
                 "Error querying ChromaDB: name 'Settings' is not defined"),
     sent).
Proof.
  intros Htruthy Hchroma Hsettings. unfold run_query, query_chroma.
  rewrite embedded. unfold_monad. rewrite Htruthy, Hchroma, Hsettings. cbn.
  rewrite !app_nil_r. reflexivity.
Qed.

Section StoreOpened.

Variable client : Client.

Hypothesis vector : Py.truthy query_embedding = true.
Hypothesis chromadb_bound : bound G "chromadb" = true.
Hypothesis Settings_bound : bound G "Settings" = true.
Hypothesis opened : PersistentClient env db_path telemetry_off = inr client.

(** The collection lookup raises: the inner handler answers. *)
Lemma query_collection_missing (e : exn) :
  get_collection client "document_collection" = inl e ->
  run_query
  = (Returned (error_payload ("Collection not found: " ++ str_exn e)),
     (sent ++ [EvPersistentClient db_path telemetry_off;
               EvGetCollection "document_collection"])%list).
Proof.
  intros Hmissing. unfold run_query, query_chroma. rewrite embedded.
  unfold_monad. rewrite vector, chromadb_bound, Settings_bound. cbn.
  fold telemetry_off. rewrite opened, Hmissing. cbn. reflexivity.
Qed.

(** The search answers: what follows is [process_results]. *)
Lemma query_search_answered (collection : Collection)
    (results : QueryResult) (payload : json) :
  get_collection client "document_collection" = inr collection ->
  coll_query collection [query_embedding] n_results query_include
  = inr results ->
  process_results results threshold = ret payload ->
  run_query
  = (Returned payload,
     (sent ++ [EvPersistentClient db_path telemetry_off;
               EvGetCollection "document_collection";
               EvQuery [query_embedding] n_results query_include])%list).
Proof.
  intros Hfound Hsearch Hprocess. unfold run_query, query_chroma.
  rewrite embedded.
  unfold_monad. rewrite vector, chromadb_bound, Settings_bound. cbn.
  fold telemetry_off. rewrite opened, Hfound. cbn.
  rewrite Hsearch. cbn. rewrite Hprocess. cbn. reflexivity.
Qed.

End StoreOpened.

End QueryPaths.

(** C5.  When the embedder yields no vector ([None], or another false
    value such as the empty list), the similarity query returns exactly
    the error object "Failed to get embedding for query", and none of its
    calls goes to the store: no connection, no collection lookup, no
    search. *)
Theorem no_vector_no_store_call (G : list string) (env : Env)
    (query_text db_path embedding_model base_url : string)
    (n_results : Z) (threshold : float) (absent : json) :
  result_of (get_embedding_from_ollama env query_text embedding_model base_url)
  = Returned absent ->
  Py.truthy absent = false ->
  let run := query_chroma G env query_text db_path embedding_model base_url
                          n_results threshold in
  result_of run = Returned (JObj [("error", JStr "Failed to get embedding for query")])
  /\ no_store_call (trace_of run).
Proof.
  intros Hembed Hfalsy run. split_embedder.
  pose proof (embedder_no_store_call env query_text embedding_model base_url)
    as Hcalls.
  rewrite Hrun in Hcalls.
  subst run. rewrite (query_without_vector G _ _ db_path _ _ n_results threshold Hrun Hfalsy).
  split; [reflexivity | exact Hcalls].
Qed.

Lemma no_vector_no_store_call_witness :
  result_of (Examples.ask module_globals (Examples.endpoint Examples.unreachable))
  = Returned (JObj [("error", JStr "Failed to get embedding for query")])
  /\ no_store_call
       (trace_of (Examples.ask module_globals
                               (Examples.endpoint Examples.unreachable))).
Proof.
  apply (@no_vector_no_store_call module_globals
           (Examples.endpoint Examples.unreachable) "what is rust" "/db"
           "all-minilm" "http://localhost:11434" 3 0.8%float JNull);
    reflexivity.
Defined.

(** C3.  Whatever the arguments and whatever the embedder, the store
    connection, the collection lookup and the search do, raising
    included, the similarity query returns, and what it returns has the
    success shape or the error shape: no exception leaves it. *)
Theorem query_chroma_never_raises (G : list string) (env : Env)
    (query_text db_path embedding_model base_url : string)
    (n_results : Z) (threshold : float) :
  exists v,
    result_of (query_chroma G env query_text db_path embedding_model base_url
                            n_results threshold) = Returned v
    /\ (is_query_success v \/ is_error_result v).
Proof.
  destruct (embedder_returns env query_text embedding_model base_url)
    as [emb Hembed].
  unfold query_chroma.
  destruct (get_embedding_from_ollama env query_text embedding_model base_url)
    as [r sent] eqn:Hrun.
  cbn in Hembed. subst r.
  assert (Herr : forall msg, is_query_success (error_payload msg)
                             \/ is_error_result (error_payload msg))
    by (intros msg; right; exists msg; reflexivity).
  unfold_monad. cbn.
  destruct (Py.truthy emb); cbn; [| eauto].
  destruct (bound G "chromadb"); cbn; [| eauto].
  destruct (bound G "Settings"); cbn; [| eauto].
  destruct (PersistentClient env db_path _) as [e | client]; cbn; [eauto |].
  destruct (get_collection client _) as [e | collection]; cbn; [eauto |].
  destruct (coll_query collection _ _ _) as [e | results]; cbn; [eauto |].
  destruct (process_results_outcome results threshold)
    as [_ [[items Hok] | [e Hraised]]];
    destruct (process_results results threshold) as [r t]; cbn in *; subst r;
    cbn; [| eauto].
  eexists. split; [reflexivity |]. left. unfold success_payload. do 2 eexists.
  reflexivity.
Qed.

Lemma module_binds_chromadb : bound module_globals "chromadb" = true.
Proof. reflexivity. Qed.

Lemma module_lacks_Settings : bound module_globals "Settings" = false.
Proof. reflexivity. Qed.

(** C1.  The module as written: [Settings] is used but never imported.
    Whenever the embedder returns a vector, evaluating
    [Settings(anonymized_telemetry=False)] raises [NameError] before
    [PersistentClient] is called; the outer handler turns it into an
    error object.  The store is never opened and the success shape is
    never returned, whatever the store holds. *)
Theorem query_chroma_store_never_opened (env : Env)
    (query_text db_path embedding_model base_url : string)
    (n_results : Z) (threshold : float) (vector : json) :
  result_of (get_embedding_from_ollama env query_text embedding_model base_url)
  = Returned vector ->
  Py.truthy vector = true ->
  let run := query_chroma module_globals env query_text db_path embedding_model
                          base_url n_results threshold in
  result_of run
  = Returned (JObj [("error",
                     JStr "Error querying ChromaDB: name 'Settings' is not defined")])
  /\ no_store_call (trace_of run)
  /\ ~ is_query_success
       (JObj [("error",
               JStr "Error querying ChromaDB: name 'Settings' is not defined")]).
Proof.
  intros Hembed Htruthy run. split_embedder.
  pose proof (embedder_no_store_call env query_text embedding_model base_url)
    as Hcalls.
  rewrite Hrun in Hcalls. subst run.
  rewrite (query_Settings_unbound module_globals _ _ db_path _ _ n_results
             threshold Hrun Htruthy module_binds_chromadb module_lacks_Settings).
  split; [reflexivity |]. split; [exact Hcalls |].
  intros (items & count & Hshape). discriminate Hshape.
Qed.

Lemma query_chroma_store_never_opened_witness :
  result_of (Examples.ask module_globals (Examples.healthy Examples.three_hits))
  = Returned (JObj [("error",
                     JStr "Error querying ChromaDB: name 'Settings' is not defined")])
  /\ no_store_call
       (trace_of (Examples.ask module_globals
                               (Examples.healthy Examples.three_hits)))
  /\ ~ is_query_success
       (JObj [("error",
               JStr "Error querying ChromaDB: name 'Settings' is not defined")]).
Proof.
  apply (@query_chroma_store_never_opened (Examples.healthy Examples.three_hits)
           "what is rust" "/db" "all-minilm" "http://localhost:11434" 3
           0.8%float (JArr [JFloat 0.25%float; JFloat 0.5%float]));
    reflexivity.
Defined.

(** C6.  The module as written, run against a store that lacks the
    collection: the answer is the [NameError] of the unimported
    [Settings], the collection lookup is never made, and the message does
    not mention "Collection not found". *)
Theorem query_chroma_missing_collection_unreported :
  Examples.ask module_globals Examples.no_collection
  = (Returned (JObj [("error",
                          JStr "Error querying ChromaDB: name 'Settings' is not defined")]),
         [EvPost "http://localhost:11434/api/embeddings"
                 (JObj [("model", JStr "all-minilm");
                        ("prompt", JStr "what is rust")])])
  /\ Py.is_substring "Collection not found"
       "Error querying ChromaDB: name 'Settings' is not defined" = false.
Proof.
  split; reflexivity.
Qed.

(** With [Settings] bound, the same store is opened, the lookup raises,
    and the inner handler reports the missing collection. *)
Lemma query_chroma_missing_collection_reported :
  Examples.ask Examples.globals_with_Settings Examples.no_collection
  = (Returned (JObj [("error",
                      JStr "Collection not found: Collection document_collection does not exist.")]),
     [EvPost "http://localhost:11434/api/embeddings"
             (JObj [("model", JStr "all-minilm"); ("prompt", JStr "what is rust")]);
      EvPersistentClient "/db" {| anonymized_telemetry := false |};
      EvGetCollection "document_collection"]).
Proof. reflexivity. Qed.

(** Under a namespace that binds [Settings]: when the search succeeds
    and returns no distances (the field is [None] or empty, or its first
    inner list is empty), the similarity query returns the success shape
    with no results and count 0. *)
Lemma empty_search_is_success (G : list string) (env : Env)
    (query_text db_path embedding_model base_url : string)
    (n_results : Z) (threshold : float) (vector : json)
    (client : Client) (collection : Collection) (results : QueryResult) :
  result_of (get_embedding_from_ollama env query_text embedding_model base_url)
  = Returned vector ->
  Py.truthy vector = true ->
  bound G "chromadb" = true ->
  bound G "Settings" = true ->
  PersistentClient env db_path {| anonymized_telemetry := false |} = inr client ->
  get_collection client "document_collection" = inr collection ->
  coll_query collection [vector] n_results ["documents"; "metadatas"; "distances"]
  = inr results ->
  (distances results = None \/ distances results = Some [] \/
   exists more, distances results = Some ([] :: more)) ->
  result_of (query_chroma G env query_text db_path embedding_model base_url
                          n_results threshold)
  = Returned (JObj [("results", JArr []); ("count", JInt 0)]).
Proof.
  intros Hembed Htruthy Hchroma Hsettings Hopen Hfound Hsearch Hempty.
  split_embedder.
  assert (Hnone : has_distances results = false).
  { unfold has_distances.
    destruct Hempty as [H | [H | [more H]]]; rewrite H; reflexivity. }
  rewrite (@query_search_answered G env query_text db_path embedding_model
             base_url n_results threshold vector sent Hrun client Htruthy
             Hchroma Hsettings Hopen collection results _ Hfound Hsearch
             (process_results_no_distances results threshold Hnone)).
  reflexivity.
Qed.

Lemma empty_search_is_success_example :
  result_of (Examples.ask Examples.globals_with_Settings
                          (Examples.healthy Examples.no_hits))
  = Returned (JObj [("results", JArr []); ("count", JInt 0)]).
Proof.
  eapply (@empty_search_is_success Examples.globals_with_Settings
            (Examples.healthy Examples.no_hits) "what is rust" "/db"
            "all-minilm" "http://localhost:11434" 3 0.8%float
            (JArr [JFloat 0.25%float; JFloat 0.5%float])).
  - reflexivity.
  - reflexivity.
  - reflexivity.
  - reflexivity.
  - reflexivity.
  - reflexivity.
  - reflexivity.
  - right. right. exists []. reflexivity.
Defined.

(** Under a namespace that binds [Settings]: when the search returns its
    three parallel inner lists, the candidates carry the similarities
    [1 - distance], one per distance and in the store's order; the
    results are the candidates whose similarity reaches the threshold,
    those and no others, in that same order; and the count is their
    number. *)
Lemma similarity_filter (G : list string) (env : Env)
    (query_text db_path embedding_model base_url : string)
    (n_results : Z) (threshold : float) (vector : json)
    (client : Client) (collection : Collection) (results : QueryResult)
    (docs metas : list json) (dists : list float)
    (more_docs more_metas : list (list json)) (more_dists : list (list float)) :
  result_of (get_embedding_from_ollama env query_text embedding_model base_url)
  = Returned vector ->
  Py.truthy vector = true ->
  bound G "chromadb" = true ->
  bound G "Settings" = true ->
  PersistentClient env db_path {| anonymized_telemetry := false |} = inr client ->
  get_collection client "document_collection" = inr collection ->
  coll_query collection [vector] n_results ["documents"; "metadatas"; "distances"]
  = inr results ->
  documents results = Some (docs :: more_docs) ->
  metadatas results = Some (metas :: more_metas) ->
  distances results = Some (dists :: more_dists) ->
  List.length docs = List.length dists ->
  List.length metas = List.length dists ->
  let candidates := Py.zip3 docs metas (map (fun dist => (1 - dist)%float) dists) in
  let kept := filter (fun x => (threshold <=? similarity x)%float) candidates in
  map similarity candidates = map (fun dist => (1 - dist)%float) dists
  /\ (forall x, In x kept
                <-> In x candidates /\ (threshold <=? similarity x)%float = true)
  /\ result_of (query_chroma G env query_text db_path embedding_model base_url
                             n_results threshold)
     = Returned (JObj [("results", JArr (map item_of kept));
                       ("count", JInt (Z.of_nat (List.length kept)))]).
Proof.
  intros Hembed Htruthy Hchroma Hsettings Hopen Hfound Hsearch
         Hdocs Hmetas Hdists Hlen_docs Hlen_metas candidates kept.
  split; [exact (zip3_similarities docs metas dists Hlen_docs Hlen_metas) |].
  split; [intros x; apply filter_In |].
  split_embedder.
  rewrite (@query_search_answered G env query_text db_path embedding_model
             base_url n_results threshold vector sent Hrun client Htruthy
             Hchroma Hsettings Hopen collection results _ Hfound Hsearch
             (process_results_retained results threshold Hdists Hdocs Hmetas)).
  cbn. unfold success_payload. rewrite length_map. reflexivity.
Qed.

Lemma similarity_filter_example :
  result_of (Examples.ask Examples.globals_with_Settings
                          (Examples.healthy Examples.three_hits))
  = Returned (JObj [("results",
                     JArr [JObj [("document", JStr "a");
                                 ("metadata", JObj [("page", JInt 1)]);
                                 ("similarity", JFloat 0.9%float)]]);
                    ("count", JInt 1)]).
Proof.
  refine (proj2 (proj2
    (@similarity_filter Examples.globals_with_Settings
       (Examples.healthy Examples.three_hits) "what is rust" "/db"
       "all-minilm" "http://localhost:11434" 3 0.8%float
       (JArr [JFloat 0.25%float; JFloat 0.5%float])
       {| get_collection := fun _ => inr (Examples.collection (inr Examples.three_hits)) |}
       (Examples.collection (inr Examples.three_hits)) Examples.three_hits
       [JStr "a"; JStr "b"; JStr "c"]
       [JObj [("page", JInt 1)]; JObj []; JNull]
       [0.1%float; 0.3%float; 0.5%float] [] [] []
       eq_refl eq_refl eq_refl eq_refl eq_refl eq_refl eq_refl eq_refl eq_refl
       eq_refl eq_refl eq_refl))).
Defined.

(** C2.  The module as written, run against a store that returns three
    candidates at distances 0.1, 0.3 and 0.5, with threshold 0.8: the
    search and the filter are never reached, the answer is the
    [NameError] of the unimported [Settings] and carries neither results
    nor a count.  With [Settings] bound the same run keeps the one
    candidate of similarity 0.9 and counts 1. *)
Theorem query_chroma_filter_unreached :
  result_of (Examples.ask module_globals (Examples.healthy Examples.three_hits))
  = Returned (JObj [("error",
                     JStr "Error querying ChromaDB: name 'Settings' is not defined")])
  /\ no_store_call
       (trace_of (Examples.ask module_globals
                               (Examples.healthy Examples.three_hits)))
  /\ result_of (Examples.ask Examples.globals_with_Settings
                             (Examples.healthy Examples.three_hits))
     = Returned (JObj [("results",
                        JArr [JObj [("document", JStr "a");
                                    ("metadata", JObj [("page", JInt 1)]);
                                    ("similarity", JFloat 0.9%float)]]);
                       ("count", JInt 1)]).
Proof.
  refine (conj eq_refl (conj _ similarity_filter_example)).
  repeat constructor.
Qed.

(** C10.  The module as written, run against a store whose search
    returns empty lists: the search is never made and the answer is the
    [NameError] of the unimported [Settings], not the success shape.
    With [Settings] bound the same run returns no results and count 0. *)
Theorem query_chroma_empty_search_unreached :
  result_of (Examples.ask module_globals (Examples.healthy Examples.no_hits))
  = Returned (JObj [("error",
                     JStr "Error querying ChromaDB: name 'Settings' is not defined")])
  /\ no_store_call
       (trace_of (Examples.ask module_globals
                               (Examples.healthy Examples.no_hits)))
  /\ result_of (Examples.ask Examples.globals_with_Settings
                             (Examples.healthy Examples.no_hits))
     = Returned (JObj [("results", JArr []); ("count", JInt 0)]).
Proof.
  refine (conj eq_refl (conj _ empty_search_is_success_example)).
  repeat constructor.
Qed.

(** ** The model lister *)

Lemma comprehension_names (records names : list json) :
  Forall2 has_name records names ->
  comprehension (fun model => Py.getitem model "name") records = inr names.
Proof.
  induction 1 as [| record name records names (fields & -> & Hname) _ IH]; cbn.
  - reflexivity.
  - rewrite Hname, IH. reflexivity.
Qed.

(** C8, as the claim states it, fails: a response with a [models] key
    one of whose records has no [name] makes the lister return an error
    object, not a list of names. *)
Lemma model_without_name_is_error :
  has_field "models" Examples.nameless_body = true
  /\ result_of (get_models_from_ollama
                  (Examples.tags_endpoint Examples.nameless_body)
                  "http://localhost:11434" false)
     = Returned (JObj [("error", JStr "Error getting models: 'name'")]).
Proof.
  split; reflexivity.
Qed.

(** C8, amended.  On a response whose [models] key holds a list of
    records that each have a [name], the model lister without details
    returns the names in the server's order, and their number as the
    count. *)
Theorem model_names_listed (env : Env) (base_url : string) (r : Response)
    (fields : list (string * json)) (records names : list json) :
  requests_get env (base_url ++ "/api/tags") = inr r ->
  raise_for_status r = None ->
  resp_json r = inr (JObj fields) ->
  Py.lookup "models" fields = Some (JArr records) ->
  Forall2 has_name records names ->
  result_of (get_models_from_ollama env base_url false)
  = Returned (JObj [("models", JArr names);
                    ("count", JInt (Z.of_nat (List.length names)))]).
Proof.
  intros Hget Hstatus Hjson Hmodels Hnames. unfold get_models_from_ollama.
  rewrite Hget. unfold_monad. cbn. rewrite Hstatus. cbn. rewrite Hjson. cbn.
  rewrite Hmodels. cbn. rewrite (comprehension_names Hnames). reflexivity.
Qed.

Lemma model_names_listed_witness :
  result_of (get_models_from_ollama
               (Examples.tags_endpoint Examples.tags_body)
               "http://localhost:11434" false)
  = Returned (JObj [("models", JArr [JStr "llama3"; JStr "mistral"]);
                    ("count", JInt 2)]).
Proof.
  eapply (@model_names_listed _ "http://localhost:11434" _ _
            [JObj [("name", JStr "llama3")]; JObj [("name", JStr "mistral")]]
            [JStr "llama3"; JStr "mistral"]).
  - reflexivity.
  - reflexivity.
  - reflexivity.
  - reflexivity.
  - repeat constructor; eexists; split; reflexivity.
Defined.

(** ** The chat relay *)

(** [if context:] against the words of the specification. *)
Lemma truthy_context (context : json) :
  Py.truthy context
  = andb (context_provided context) (negb (false_or_zero context)).
Proof.
  destruct context as [| b | n | x | s | items | fields]; cbn;
    try reflexivity.
  - destruct b; reflexivity.
  - destruct s; reflexivity.
  - destruct items; reflexivity.
  - destruct fields; reflexivity.
Qed.

Lemma chat_request_as_specified (messages : json) (model : string)
    (context : json) :
  chat_request messages model context = chat_request_spec messages model context.
Proof.
  unfold chat_request, chat_request_spec, chat_options.
  rewrite <- truthy_context. destruct (Py.truthy context); reflexivity.
Qed.

(** The relay posts its request once, whatever the server then does. *)
Lemma chat_posts_once (env : Env) (messages : json) (model : string)
    (context : json) (base_url : string) :
  trace_of (send_chat_to_ollama env messages model context base_url)
  = [EvPost (base_url ++ "/api/chat") (chat_request messages model context)].
Proof.
  unfold send_chat_to_ollama. run; reflexivity.
Qed.

(** C9, as the claim states it, fails: the context [0] is provided, is
    not null and is not empty, and the request carries no context
    field. *)
Lemma chat_context_zero_dropped :
  context_provided (JInt 0) = true
  /\ trace_of (send_chat_to_ollama (Examples.healthy Examples.no_hits)
                                   Examples.user_messages "llama3" (JInt 0)
                                   "http://localhost:11434")
     = [EvPost "http://localhost:11434/api/chat"
               (JObj [("model", JStr "llama3");
                      ("messages", Examples.user_messages);
                      ("options", JObj [("temperature", JFloat 0.7%float);
                                        ("num_ctx", JInt 16384)])])]
  /\ has_field "context"
       (JObj [("model", JStr "llama3");
              ("messages", Examples.user_messages);
              ("options", JObj [("temperature", JFloat 0.7%float);
                                ("num_ctx", JInt 16384)])]) = false.
Proof.
  refine (conj _ (conj _ _)); reflexivity.
Qed.

(** C9, amended.  Every chat invocation posts one request: the given
    model, the message list as it is, the options temperature 0.7 and
    num_ctx 16384, and the context, as it is, exactly when it is provided
    (not null, not empty) and is not [False] or a numeric zero.  On
    success the decoded response of the server is returned as it is. *)
Theorem chat_request_contract (env : Env) (messages : json) (model : string)
    (context : json) (base_url : string) :
  let url := base_url ++ "/api/chat" in
  let body := chat_request_spec messages model context in
  let run := send_chat_to_ollama env messages model context base_url in
  trace_of run = [EvPost url body]
  /\ (has_field "context" body = true
      <-> context_provided context = true /\ false_or_zero context = false)
  /\ (has_field "context" body = true -> Py.getitem body "context" = inr context)
  /\ (forall r reply,
         requests_post env url body = inr r ->
         raise_for_status r = None ->
         resp_json r = inr reply ->
         result_of run = Returned reply).
Proof.
  cbv zeta. rewrite chat_posts_once, chat_request_as_specified.
  refine (conj eq_refl (conj _ (conj _ _))).
  - unfold chat_request_spec.
    destruct (context_provided context), (false_or_zero context); cbn;
      intuition congruence.
  - unfold chat_request_spec.
    destruct (context_provided context && negb (false_or_zero context))%bool;
      cbn; [reflexivity | discriminate].
  - intros r reply Hpost Hstatus Hjson. unfold send_chat_to_ollama.
    rewrite chat_request_as_specified, Hpost. unfold_monad. cbn.
    rewrite Hstatus. cbn. rewrite Hjson. reflexivity.
Qed.

Lemma chat_request_contract_witness :
  send_chat_to_ollama (Examples.healthy Examples.no_hits) Examples.user_messages
                      "llama3" (JArr [JInt 1; JInt 2]) "http://localhost:11434"
  = (Returned Examples.embedding_body,
     [EvPost "http://localhost:11434/api/chat"
             (JObj [("model", JStr "llama3");
                    ("messages", Examples.user_messages);
                    ("options", JObj [("temperature", JFloat 0.7%float);
                                      ("num_ctx", JInt 16384)]);
                    ("context", JArr [JInt 1; JInt 2])])]).
Proof.
  pose proof (@chat_request_contract (Examples.healthy Examples.no_hits)
                Examples.user_messages
                "llama3" (JArr [JInt 1; JInt 2]) "http://localhost:11434")
    as (Htrace & _ & _ & Hreply).
  specialize (Hreply _ Examples.embedding_body eq_refl eq_refl eq_refl).
  cbv zeta in Htrace.
  destruct (send_chat_to_ollama _ _ _ _ _) as [answer calls].
  cbn in Htrace, Hreply. rewrite Htrace, Hreply. reflexivity.
Defined.

(** ** The command handler *)

(** C7, as the claim states it, fails: with the limit and the threshold
    left out of the command line, the handler raises [IndexError] at
    [sys.argv[6]] and makes no call, where a run with the defaults would
    request an embedding and print a result. *)
Lemma query_command_without_limit_raises :
  main module_globals (Examples.command_line Examples.three_hits)
       ["api_proxy_helper.py"; "query"; "what is rust"; "/db"; "all-minilm";
        "http://localhost:11434"]
  = (Raised (IndexError "list index out of range"), [])
  /\ main module_globals (Examples.command_line Examples.three_hits)
          ["api_proxy_helper.py"; "query"; "what is rust"; "/db"; "all-minilm";
           "http://localhost:11434"]
     <> (result <- query_chroma_call module_globals
                     (Examples.command_line Examples.three_hits)
                     "what is rust" "/db" "all-minilm" "http://localhost:11434"
                     None None ;;
         emit (EvStdout result)).
Proof.
  split; [reflexivity |].
  intros Hsame. vm_compute in Hsame. discriminate Hsame.
Qed.

(** C7, amended.  The defaults 5 and 0.75 are those of the function: a
    call that leaves the limit and the threshold out runs with them.  The
    command surface passes on the values it reads from its sixth and
    seventh arguments, and with both left out it raises [IndexError]
    before the operation is invoked. *)
Theorem limit_and_threshold_defaults (G : list string) (env : Env)
    (program query_text db_path embedding_model base_url : string) :
  query_chroma_call G env query_text db_path embedding_model base_url None None
  = query_chroma G env query_text db_path embedding_model base_url 5 0.75%float
  /\ main G env [program; "query"; query_text; db_path; embedding_model; base_url]
     = (Raised (IndexError "list index out of range"), [])
  /\ (forall limit_text threshold_text n_results threshold,
         py_int env limit_text = inr n_results ->
         py_float env threshold_text = inr threshold ->
         main G env [program; "query"; query_text; db_path; embedding_model;
                     base_url; limit_text; threshold_text]
         = (result <- query_chroma G env query_text db_path embedding_model
                        base_url n_results threshold ;;
            emit (EvStdout result))).
Proof.
  refine (conj eq_refl (conj eq_refl _)).
  intros limit_text threshold_text n_results threshold Hint Hfloat.
  unfold main, argv_at. cbn -[query_chroma bind ret emit].
  rewrite !bind_ret. cbn -[query_chroma bind ret emit].
  rewrite Hint. cbn -[query_chroma bind ret emit]. rewrite !bind_ret.
  rewrite Hfloat. cbn -[query_chroma bind ret emit]. rewrite !bind_ret.
  reflexivity.
Qed.

Lemma limit_and_threshold_defaults_witness :
  main module_globals (Examples.command_line Examples.three_hits)
       ["api_proxy_helper.py"; "query"; "what is rust"; "/db"; "all-minilm";
        "http://localhost:11434"; "3"; "0.8"]
  = (result <- query_chroma module_globals
                 (Examples.command_line Examples.three_hits) "what is rust"
                 "/db" "all-minilm" "http://localhost:11434" 3 0.8%float ;;
     emit (EvStdout result)).
Proof.
  apply (proj2 (proj2
    (@limit_and_threshold_defaults module_globals
       (Examples.command_line Examples.three_hits) "api_proxy_helper.py"
       "what is rust" "/db" "all-minilm" "http://localhost:11434")));
    reflexivity.
Defined.

(** * Further properties of the module *)

(** ** The model lister, beyond the names *)

Lemma request_fails_cases (answer : exn + Response) :
  (exists e, request_fails answer e) \/ (exists body, request_answers answer body).
Proof.
  unfold request_fails, request_answers.
  destruct answer as [e | r]; [left; eauto |].
  destruct (raise_for_status r) as [e |] eqn:Hstatus; [left; eauto 6 |].
  destruct (resp_json r) as [e | body] eqn:Hjson; [left | right]; eauto 8.
Qed.

(** The lister handles every exception of its body: it returns, and
    what it returns is a model list with its count or an error object. *)
Theorem get_models_never_raises (env : Env) (base_url : string)
    (include_details : bool) :
  exists v,
    result_of (get_models_from_ollama env base_url include_details) = Returned v
    /\ (is_models_result v \/ is_error_result v).
Proof.
  assert (Herr : forall msg, is_models_result (error_payload msg)
                             \/ is_error_result (error_payload msg))
    by (intros msg; right; exists msg; reflexivity).
  assert (Hok : forall models count,
             is_models_result (JObj [("models", models); ("count", JInt count)])
             \/ is_error_result (JObj [("models", models); ("count", JInt count)]))
    by (intros models count; left; exists models, count; reflexivity).
  unfold get_models_from_ollama. run; eauto.
Qed.

(** With details, a list of records is returned as the server sent it,
    with its length, whether or not the records have a name. *)
Theorem model_details_passed_through (env : Env) (base_url : string)
    (fields : list (string * json)) (records : list json) :
  request_answers (requests_get env (base_url ++ "/api/tags")) (JObj fields) ->
  Py.lookup "models" fields = Some (JArr records) ->
  get_models_from_ollama env base_url true
  = (Returned (JObj [("models", JArr records);
                     ("count", JInt (Z.of_nat (List.length records)))]),
     [EvGet (base_url ++ "/api/tags")]).
Proof.
  intros (r & Hget & Hstatus & Hjson) Hmodels. unfold get_models_from_ollama.
  rewrite Hget. unfold_monad. cbn. rewrite Hstatus. cbn. rewrite Hjson. cbn.
  rewrite Hmodels. cbn. reflexivity.
Qed.

Lemma model_details_passed_through_witness :
  get_models_from_ollama (Examples.tags_endpoint Examples.nameless_body)
                         "http://localhost:11434" true
  = (Returned (JObj [("models", JArr [JObj [("name", JStr "llama3")];
                                      JObj [("size", JInt 4)]]);
                     ("count", JInt 2)]),
     [EvGet "http://localhost:11434/api/tags"]).
Proof.
  apply (@model_details_passed_through
           (Examples.tags_endpoint Examples.nameless_body)
           "http://localhost:11434"
           [("models", JArr [JObj [("name", JStr "llama3")];
                             JObj [("size", JInt 4)]])]).
  - eexists. repeat split; reflexivity.
  - reflexivity.
Defined.

(** A decoded object without a [models] key gives the fixed error
    "Unexpected response format", with or without details, after one line
    on the error stream that shows the object. *)
Theorem models_key_missing (env : Env) (base_url : string)
    (include_details : bool) (fields : list (string * json)) :
  request_answers (requests_get env (base_url ++ "/api/tags")) (JObj fields) ->
  Py.lookup "models" fields = None ->
  get_models_from_ollama env base_url include_details
  = (Returned (JObj [("error", JStr "Unexpected response format")]),
     [EvGet (base_url ++ "/api/tags");
      EvStderrRepr "Error: Unexpected response format - " (JObj fields)]).
Proof.
  intros (r & Hget & Hstatus & Hjson) Hmodels. unfold get_models_from_ollama.
  rewrite Hget. unfold_monad. cbn. rewrite Hstatus. cbn. rewrite Hjson. cbn.
  rewrite Hmodels. cbn. reflexivity.
Qed.

Lemma models_key_missing_witness :
  get_models_from_ollama
    (Examples.tags_endpoint (JObj [("error", JStr "unauthorized")]))
    "http://localhost:11434" false
  = (Returned (JObj [("error", JStr "Unexpected response format")]),
     [EvGet "http://localhost:11434/api/tags";
      EvStderrRepr "Error: Unexpected response format - "
                   (JObj [("error", JStr "unauthorized")])]).
Proof.
  apply (@models_key_missing
           (Examples.tags_endpoint (JObj [("error", JStr "unauthorized")]))
           "http://localhost:11434" false [("error", JStr "unauthorized")]).
  - eexists. repeat split; reflexivity.
  - reflexivity.
Defined.

(** A failed exchange with the server gives the error object whose
    message is "Error getting models: " and the text of the exception,
    and the same text goes to the error stream. *)
Theorem models_request_failure_reported (env : Env) (base_url : string)
    (include_details : bool) (e : exn) :
  request_fails (requests_get env (base_url ++ "/api/tags")) e ->
  get_models_from_ollama env base_url include_details
  = (Returned (JObj [("error", JStr ("Error getting models: " ++ str_exn e))]),
     [EvGet (base_url ++ "/api/tags");
      EvStderr ("Error getting models: " ++ str_exn e)]).
Proof.
  unfold get_models_from_ollama.
  intros [Hget | [(r & Hget & Hstatus) | (r & Hget & Hstatus & Hjson)]];
    rewrite Hget; unfold_monad; cbn.
  - reflexivity.
  - rewrite Hstatus. reflexivity.
  - rewrite Hstatus. cbn. rewrite Hjson. reflexivity.
Qed.

Lemma models_request_failure_reported_witness :
  get_models_from_ollama (Examples.endpoint Examples.unreachable)
                         "http://localhost:11434" false
  = (Returned (JObj [("error", JStr "Error getting models: Connection refused")]),
     [EvGet "http://localhost:11434/api/tags";
      EvStderr "Error getting models: Connection refused"]).
Proof.
  apply (@models_request_failure_reported
           (Examples.endpoint Examples.unreachable) "http://localhost:11434"
           false (UpstreamError "Connection refused")).
  left. reflexivity.
Defined.

Lemma comprehension_stops (named names : list json)
    (nameless : list (string * json)) (rest : list json) :
  Forall2 has_name named names ->
  Py.lookup "name" nameless = None ->
  comprehension (fun model => Py.getitem model "name")
                (named ++ JObj nameless :: rest)
  = inl (KeyError "name").
Proof.
  intros Hnamed Hnone.
  induction Hnamed as [| record name named names (fields & -> & Hname) _ IH];
    cbn.
  - rewrite Hnone. reflexivity.
  - rewrite Hname. cbn in IH. rewrite IH. reflexivity.
Qed.

(** Without details, one record that lacks a [name] spoils the whole
    list: whatever the records before and after it, the answer is the
    error object that quotes the missing key. *)
Theorem model_without_name_spoils_list (env : Env) (base_url : string)
    (fields : list (string * json)) (named names : list json)
    (nameless : list (string * json)) (rest : list json) :
  request_answers (requests_get env (base_url ++ "/api/tags")) (JObj fields) ->
  Py.lookup "models" fields = Some (JArr (named ++ JObj nameless :: rest)) ->
  Forall2 has_name named names ->
  Py.lookup "name" nameless = None ->
  result_of (get_models_from_ollama env base_url false)
  = Returned (JObj [("error", JStr "Error getting models: 'name'")]).
Proof.
  intros (r & Hget & Hstatus & Hjson) Hmodels Hnamed Hnone.
  unfold get_models_from_ollama.
  rewrite Hget. unfold_monad. cbn. rewrite Hstatus. cbn. rewrite Hjson. cbn.
  rewrite Hmodels. cbn. rewrite (@comprehension_stops named names nameless rest Hnamed Hnone).
  reflexivity.
Qed.

Lemma model_without_name_spoils_list_witness :
  result_of (get_models_from_ollama
               (Examples.tags_endpoint Examples.nameless_body)
               "http://localhost:11434" false)
  = Returned (JObj [("error", JStr "Error getting models: 'name'")]).
Proof.
  apply (@model_without_name_spoils_list
           (Examples.tags_endpoint Examples.nameless_body)
           "http://localhost:11434"
           [("models", JArr [JObj [("name", JStr "llama3")];
                             JObj [("size", JInt 4)]])]
           [JObj [("name", JStr "llama3")]] [JStr "llama3"]
           [("size", JInt 4)] []).
  - eexists. repeat split; reflexivity.
  - reflexivity.
  - repeat constructor. eexists. split; reflexivity.
  - reflexivity.
Defined.

(** ** The embedder and the chat relay on the wire *)

Lemma getitem_answers (body : json) (key : string) (v : json) :
  Py.getitem body key = inr v ->
  exists fields, body = JObj fields /\ Py.lookup key fields = Some v.
Proof.
  destruct body; cbn; try discriminate.
  destruct (Py.lookup key fields) as [x |] eqn:Hlookup; [| discriminate].
  intros [= <-]. eauto.
Qed.

(** The embedder sends one request, to the embeddings endpoint, with the
    model and the prompt.  Either the decoded body is an object with an
    [embedding] key, whose value is returned and nothing is written; or
    [None] is returned after exactly one line on the error stream. *)
Theorem embedder_one_request (env : Env) (text model base_url : string) :
  let request :=
    EvPost (base_url ++ "/api/embeddings")
           (JObj [("model", JStr model); ("prompt", JStr text)]) in
  let answer :=
    requests_post env (base_url ++ "/api/embeddings")
                  (JObj [("model", JStr model); ("prompt", JStr text)]) in
  (exists fields vector,
      request_answers answer (JObj fields)
      /\ Py.lookup "embedding" fields = Some vector
      /\ get_embedding_from_ollama env text model base_url
         = (Returned vector, [request]))
  \/ (exists line,
         is_diagnostic line = true
         /\ get_embedding_from_ollama env text model base_url
            = (Returned JNull, [request; line])).
Proof.
  cbv zeta. unfold get_embedding_from_ollama, request_answers.
  destruct (requests_post env _ _) as [e | r] eqn:Hpost;
    [right; eexists; split; [| reflexivity]; reflexivity |].
  unfold_monad. cbn.
  destruct (raise_for_status r) as [e |] eqn:Hstatus; cbn;
    [right; eexists; split; [| reflexivity]; reflexivity |].
  destruct (resp_json r) as [e | body] eqn:Hjson; cbn;
    [right; eexists; split; [| reflexivity]; reflexivity |].
  destruct (Py.contains "embedding" body) as [e | [|]] eqn:Hin; cbn;
    [right; eexists; split; [| reflexivity]; reflexivity | |
     right; eexists; split; [| reflexivity]; reflexivity].
  destruct (Py.getitem body "embedding") as [e | vector] eqn:Hitem; cbn;
    [right; eexists; split; [| reflexivity]; reflexivity |].
  destruct (getitem_answers _ _ Hitem) as (fields & -> & Hlookup).
  left. exists fields, vector. eauto 8.
Qed.

(** The chat relay returns the decoded reply of the server as it is, or,
    when the exchange fails, the error object whose message is "Error
    sending chat to Ollama: " and the text of the exception.  It never
    raises, and it posts its one request and writes nothing else. *)
Theorem chat_reply_or_error (env : Env) (messages : json) (model : string)
    (context : json) (base_url : string) :
  let request := EvPost (base_url ++ "/api/chat")
                        (chat_request messages model context) in
  let answer := requests_post env (base_url ++ "/api/chat")
                              (chat_request messages model context) in
  (exists reply,
      request_answers answer reply
      /\ send_chat_to_ollama env messages model context base_url
         = (Returned reply, [request]))
  \/ (exists e,
         request_fails answer e
         /\ send_chat_to_ollama env messages model context base_url
            = (Returned (JObj [("error",
                                JStr ("Error sending chat to Ollama: "
                                      ++ str_exn e))]),
               [request])).
Proof.
  cbv zeta. unfold send_chat_to_ollama, request_answers, request_fails.
  destruct (requests_post env _ _) as [e | r] eqn:Hpost;
    [right; exists e; split; [left |]; reflexivity |].
  unfold_monad. cbn.
  destruct (raise_for_status r) as [e |] eqn:Hstatus; cbn;
    [right; exists e; split; [right; left; eauto | reflexivity] |].
  destruct (resp_json r) as [e | reply] eqn:Hjson; cbn.
  - right. exists e. split; [right; right; eauto 6 | reflexivity].
  - left. exists reply. split; [eauto 6 | reflexivity].
Qed.

(** ** The similarity query, path by path *)

(** Every run: the embedder's calls, then a prefix of the three store
    calls, and a result of one of the two shapes. *)
Lemma query_chroma_runs (G : list string) (env : Env)
    (query_text db_path embedding_model base_url : string)
    (n_results : Z) (threshold : float) :
  exists vector v k,
    result_of (get_embedding_from_ollama env query_text embedding_model base_url)
    = Returned vector
    /\ query_chroma G env query_text db_path embedding_model base_url
                    n_results threshold
       = (Returned v,
          (trace_of (get_embedding_from_ollama env query_text embedding_model
                                               base_url)
           ++ firstn k (store_calls db_path vector n_results))%list)
    /\ (is_query_success v \/ is_error_result v).
Proof.
  destruct (embedder_returns env query_text embedding_model base_url)
    as [vector Hembed].
  unfold query_chroma.
  destruct (get_embedding_from_ollama env query_text embedding_model base_url)
    as [r sent] eqn:Hrun.
  cbn in Hembed. subst r. exists vector.
  assert (Herr : forall msg, is_query_success (error_payload msg)
                             \/ is_error_result (error_payload msg))
    by (intros msg; right; exists msg; reflexivity).
  unfold_monad. cbn.
  destruct (Py.truthy vector); cbn; [| stops_after 0%nat].
  destruct (bound G "chromadb"); cbn; [| stops_after 0%nat].
  destruct (bound G "Settings"); cbn; [| stops_after 0%nat].
  destruct (PersistentClient env db_path _) as [e | client]; cbn;
    [stops_after 1%nat |].
  destruct (get_collection client _) as [e | collection]; cbn;
    [stops_after 2%nat |].
  destruct (coll_query collection _ _ _) as [e | results]; cbn;
    [stops_after 3%nat |].
  destruct (process_results_outcome results threshold)
    as [Htrace [[items Hok] | [e Hraised]]];
    destruct (process_results results threshold) as [r t]; cbn in *; subst r t;
    cbn; [| stops_after 3%nat].
  eexists. exists 3%nat. cbn. rewrite ?app_nil_r, <- ?app_assoc. cbn.
  split; [reflexivity |]. split; [reflexivity |].
  left. unfold success_payload. do 2 eexists. reflexivity.
Qed.

(** The store is only ever touched through the three calls of the
    source, each at most once and in their order: opened at the given
    path with telemetry off, asked for "document_collection", searched
    with the query embedding, the limit and the three includes.  Nothing
    is written to the output streams beyond what the embedder writes. *)
Theorem store_calls_in_order (G : list string) (env : Env)
    (query_text db_path embedding_model base_url : string)
    (n_results : Z) (threshold : float) :
  exists vector k,
    result_of (get_embedding_from_ollama env query_text embedding_model base_url)
    = Returned vector
    /\ trace_of (query_chroma G env query_text db_path embedding_model base_url
                              n_results threshold)
       = (trace_of (get_embedding_from_ollama env query_text embedding_model
                                              base_url)
          ++ firstn k (store_calls db_path vector n_results))%list.
Proof.
  destruct (query_chroma_runs G env query_text db_path embedding_model base_url
                              n_results threshold)
    as (vector & v & k & Hvector & Hrun & _).
  exists vector, k. rewrite Hrun. split; [exact Hvector | reflexivity].
Qed.

(** The module as written never returns results: whatever the server and
    the store do, the answer of the similarity query is an error object,
    and the store is not touched. *)
Theorem query_chroma_always_error (env : Env)
    (query_text db_path embedding_model base_url : string)
    (n_results : Z) (threshold : float) :
  is_error_result_of
    (query_chroma module_globals env query_text db_path embedding_model
                  base_url n_results threshold).
Proof.
  unfold is_error_result_of.
  destruct (embedder_returns env query_text embedding_model base_url)
    as [vector Hembed].
  pose proof (embedder_no_store_call env query_text embedding_model base_url)
    as Hcalls.
  destruct (get_embedding_from_ollama env query_text embedding_model base_url)
    as [r sent] eqn:Hrun.
  cbn in Hembed, Hcalls. subst r.
  destruct (Py.truthy vector) eqn:Htruthy.
  - rewrite (query_Settings_unbound module_globals _ _ db_path _ _ n_results
               threshold Hrun Htruthy module_binds_chromadb
               module_lacks_Settings).
    split; [eexists; reflexivity | exact Hcalls].
  - rewrite (query_without_vector module_globals _ _ db_path _ _ n_results
               threshold Hrun Htruthy).
    split; [eexists; reflexivity | exact Hcalls].
Qed.

(** When the store cannot be opened, the answer is the error object
    "Error querying ChromaDB: " with the text of the exception, and
    neither the collection lookup nor the search is attempted. *)
Theorem store_connection_failure_reported (G : list string) (env : Env)
    (query_text db_path embedding_model base_url : string)
    (n_results : Z) (threshold : float) (vector : json) (e : exn) :
  result_of (get_embedding_from_ollama env query_text embedding_model base_url)
  = Returned vector ->
  Py.truthy vector = true ->
  bound G "chromadb" = true ->
  bound G "Settings" = true ->
  PersistentClient env db_path {| anonymized_telemetry := false |} = inl e ->
  query_chroma G env query_text db_path embedding_model base_url
               n_results threshold
  = (Returned (JObj [("error", JStr ("Error querying ChromaDB: " ++ str_exn e))]),
     (trace_of (get_embedding_from_ollama env query_text embedding_model base_url)
      ++ [EvPersistentClient db_path {| anonymized_telemetry := false |}])%list).
Proof.
  intros Hembed Htruthy Hchroma Hsettings Hopen. unfold query_chroma.
  split_embedder. unfold_monad. rewrite Htruthy, Hchroma, Hsettings. cbn.
  rewrite Hopen. cbn. rewrite ?app_nil_r. reflexivity.
Qed.

Lemma store_connection_failure_reported_witness :
  Examples.ask Examples.globals_with_Settings
               Worlds.locked
  = (Returned (JObj [("error",
                      JStr "Error querying ChromaDB: Could not connect to tenant")]),
     [EvPost "http://localhost:11434/api/embeddings"
             (JObj [("model", JStr "all-minilm"); ("prompt", JStr "what is rust")]);
      EvPersistentClient "/db" {| anonymized_telemetry := false |}]).
Proof.
  apply (@store_connection_failure_reported Examples.globals_with_Settings
           Worlds.locked
           "what is rust" "/db" "all-minilm" "http://localhost:11434" 3
           0.8%float (JArr [JFloat 0.25%float; JFloat 0.5%float])
           (ValueError "Could not connect to tenant"));
    reflexivity.
Defined.

(** When the search raises, the answer is the error object "Error
    querying ChromaDB: " with the text of the exception, after the three
    store calls. *)
Theorem search_failure_reported (G : list string) (env : Env)
    (query_text db_path embedding_model base_url : string)
    (n_results : Z) (threshold : float) (vector : json)
    (client : Client) (collection : Collection) (e : exn) :
  result_of (get_embedding_from_ollama env query_text embedding_model base_url)
  = Returned vector ->
  Py.truthy vector = true ->
  bound G "chromadb" = true ->
  bound G "Settings" = true ->
  PersistentClient env db_path {| anonymized_telemetry := false |} = inr client ->
  get_collection client "document_collection" = inr collection ->
  coll_query collection [vector] n_results ["documents"; "metadatas"; "distances"]
  = inl e ->
  query_chroma G env query_text db_path embedding_model base_url
               n_results threshold
  = (Returned (JObj [("error", JStr ("Error querying ChromaDB: " ++ str_exn e))]),
     (trace_of (get_embedding_from_ollama env query_text embedding_model base_url)
      ++ store_calls db_path vector n_results)%list).
Proof.
  intros Hembed Htruthy Hchroma Hsettings Hopen Hfound Hsearch.
  unfold query_chroma. split_embedder. unfold_monad.
  rewrite Htruthy, Hchroma, Hsettings. cbn. rewrite Hopen, Hfound. cbn.
  unfold query_include. rewrite Hsearch. cbn.
  rewrite ?app_nil_r, <- ?app_assoc. reflexivity.
Qed.

Lemma search_failure_reported_witness :
  Examples.ask Examples.globals_with_Settings Worlds.mismatched
  = (Returned (JObj [("error",
                      JStr "Error querying ChromaDB: Embedding dimension 2 does not match collection dimensionality 384")]),
     [EvPost "http://localhost:11434/api/embeddings"
             (JObj [("model", JStr "all-minilm"); ("prompt", JStr "what is rust")]);
      EvPersistentClient "/db" {| anonymized_telemetry := false |};
      EvGetCollection "document_collection";
      EvQuery [JArr [JFloat 0.25%float; JFloat 0.5%float]] 3
              ["documents"; "metadatas"; "distances"]]).
Proof.
  apply (@search_failure_reported Examples.globals_with_Settings
           Worlds.mismatched "what is rust" "/db" "all-minilm"
           "http://localhost:11434" 3 0.8%float
           (JArr [JFloat 0.25%float; JFloat 0.5%float])
           {| get_collection :=
                fun _ => inr (Examples.collection (inl Worlds.dimension_error)) |}
           (Examples.collection (inl Worlds.dimension_error))
           Worlds.dimension_error);
    reflexivity.
Defined.

(** ** What the filter lets through *)

Lemma zip3_positions {A B C : Type} (xs : list A) (ys : list B) (zs : list C)
    (x : A) (y : B) (z : C) :
  In (x, y, z) (Py.zip3 xs ys zs) ->
  exists i, nth_error xs i = Some x /\ nth_error ys i = Some y
            /\ nth_error zs i = Some z.
Proof.
  revert ys zs. induction xs as [| x0 xs IH]; intros [| y0 ys] [| z0 zs];
    cbn; try contradiction.
  intros [[= -> -> ->] | Hin].
  - exists 0%nat. repeat split.
  - destruct (IH _ _ Hin) as (i & Hx & Hy & Hz). exists (S i). auto.
Qed.

Lemma zip3_length {A B C : Type} (xs : list A) (ys : list B) (zs : list C) :
  List.length (Py.zip3 xs ys zs)
  = Nat.min (List.length xs) (Nat.min (List.length ys) (List.length zs)).
Proof.
  revert ys zs. induction xs as [| x xs IH]; intros [| y ys] [| z zs];
    cbn [Py.zip3 List.length]; rewrite ?IH; lia.
Qed.

(** Every item of a returned payload is built from one position of the
    three inner lists and reaches the threshold. *)
Lemma process_results_items (results : QueryResult) (threshold : float)
    (v : json) :
  result_of (process_results results threshold) = Returned v ->
  exists items,
    v = success_payload items
    /\ Forall
         (fun item =>
            exists doc metadata dist docs metas dists more_docs more_metas
                   more_dists i,
              item = result_item doc metadata (similarity_of dist)
              /\ ge_float (similarity_of dist) threshold = true
              /\ documents results = Some (docs :: more_docs)
              /\ metadatas results = Some (metas :: more_metas)
              /\ distances results = Some (dists :: more_dists)
              /\ nth_error docs i = Some doc
              /\ nth_error metas i = Some metadata
              /\ nth_error dists i = Some dist)
         items.
Proof.
  unfold process_results. destruct (has_distances results) eqn:Hhas.
  - unfold has_distances in Hhas.
    destruct (distances results) as [[| dists more_dists] |] eqn:Hdists;
      try discriminate.
    unfold_monad. cbn.
    destruct (documents results) as [[| docs more_docs] |] eqn:Hdocs; cbn;
      try discriminate.
    destruct (metadatas results) as [[| metas more_metas] |] eqn:Hmetas; cbn;
      try discriminate.
    intros [= <-]. eexists. split; [reflexivity |].
    rewrite loop_appends_retained. cbn.
    apply Forall_forall. intros item Hitem.
    apply in_map_iff in Hitem. destruct Hitem as ([[doc metadata] s] & <- & Hin).
    apply filter_In in Hin. destruct Hin as [Hin Hkeep].
    destruct (zip3_positions _ _ _ _ _ _ Hin) as (i & Hdoc & Hmeta & Hsim).
    rewrite nth_error_map in Hsim.
    destruct (nth_error dists i) as [dist |] eqn:Hdist; cbn in Hsim;
      [| discriminate].
    injection Hsim as <-.
    exists doc, metadata, dist, docs, metas, dists, more_docs, more_metas,
      more_dists, i.
    repeat split; try assumption.
  - cbn. intros [= <-]. exists []. split; [reflexivity | constructor].
Qed.

(** Every returned item comes from one position of the store's answer:
    the document, the metadata and the distance at the same index, with
    similarity [1 - distance], and that similarity reaches the threshold.
    This holds whatever the lengths of the three lists. *)
Theorem returned_items_are_sound (results : QueryResult) (threshold : float)
    (v : json) :
  result_of (process_results results threshold) = Returned v ->
  exists items,
    v = JObj [("results", JArr items);
              ("count", JInt (Z.of_nat (List.length items)))]
    /\ forall item, In item items ->
       exists doc metadata dist docs metas dists more_docs more_metas
              more_dists i,
         item = JObj [("document", doc); ("metadata", metadata);
                      ("similarity", JFloat (1 - dist)%float)]
         /\ (threshold <=? 1 - dist)%float = true
         /\ documents results = Some (docs :: more_docs)
         /\ metadatas results = Some (metas :: more_metas)
         /\ distances results = Some (dists :: more_dists)
         /\ nth_error docs i = Some doc
         /\ nth_error metas i = Some metadata
         /\ nth_error dists i = Some dist.
Proof.
  intros Hrun. destruct (process_results_items results threshold Hrun)
    as (items & -> & Hitems).
  exists items. split; [reflexivity |].
  intros item Hin. exact (proj1 (Forall_forall _ _) Hitems item Hin).
Qed.

Lemma returned_items_are_sound_witness :
  exists items,
    JObj [("results",
           JArr [JObj [("document", JStr "a");
                       ("metadata", JObj [("page", JInt 1)]);
                       ("similarity", JFloat 0.9%float)]]);
          ("count", JInt 1)]
    = JObj [("results", JArr items);
            ("count", JInt (Z.of_nat (List.length items)))]
    /\ forall item, In item items ->
       exists doc metadata dist docs metas dists more_docs more_metas
              more_dists i,
         item = JObj [("document", doc); ("metadata", metadata);
                      ("similarity", JFloat (1 - dist)%float)]
         /\ (0.8 <=? 1 - dist)%float = true
         /\ documents Examples.three_hits = Some (docs :: more_docs)
         /\ metadatas Examples.three_hits = Some (metas :: more_metas)
         /\ distances Examples.three_hits = Some (dists :: more_dists)
         /\ nth_error docs i = Some doc
         /\ nth_error metas i = Some metadata
         /\ nth_error dists i = Some dist.
Proof.
  apply (@returned_items_are_sound Examples.three_hits 0.8%float).
  reflexivity.
Defined.

(** The loop stops with the shortest of the three lists: the count never
    exceeds the number of documents, of metadatas or of distances. *)
Theorem count_bounded_by_shortest_list (results : QueryResult)
    (threshold : float) (docs metas : list json) (dists : list float)
    (more_docs more_metas : list (list json)) (more_dists : list (list float)) :
  documents results = Some (docs :: more_docs) ->
  metadatas results = Some (metas :: more_metas) ->
  distances results = Some (dists :: more_dists) ->
  exists items,
    process_results results threshold
    = (Returned (JObj [("results", JArr items);
                       ("count", JInt (Z.of_nat (List.length items)))]), [])
    /\ (List.length items
        <= Nat.min (List.length docs)
                   (Nat.min (List.length metas) (List.length dists)))%nat.
Proof.
  intros Hdocs Hmetas Hdists.
  rewrite (process_results_retained results threshold Hdists Hdocs Hmetas).
  eexists. split; [reflexivity |].
  rewrite length_map. unfold retained.
  etransitivity; [apply filter_length_le |].
  unfold candidate. rewrite zip3_length, length_map. reflexivity.
Qed.

Lemma count_bounded_by_shortest_list_witness :
  exists items,
    process_results Worlds.ragged_hits 0.5%float
    = (Returned (JObj [("results", JArr items);
                       ("count", JInt (Z.of_nat (List.length items)))]), [])
    /\ (List.length items <= 1)%nat.
Proof.
  apply (@count_bounded_by_shortest_list Worlds.ragged_hits 0.5%float
           [JStr "a"] [JNull; JNull] [0.1%float; 0.2%float; 0.3%float]
           [] [] []);
    reflexivity.
Defined.

(** When the search returns distances but no documents (the field is
    [None] or an empty list), indexing it raises inside the function and
    the answer is an error object: no partial result is returned. *)
Theorem distances_without_documents_is_error (G : list string) (env : Env)
    (query_text db_path embedding_model base_url : string)
    (n_results : Z) (threshold : float) (vector : json)
    (client : Client) (collection : Collection) (results : QueryResult) :
  result_of (get_embedding_from_ollama env query_text embedding_model base_url)
  = Returned vector ->
  Py.truthy vector = true ->
  bound G "chromadb" = true ->
  bound G "Settings" = true ->
  PersistentClient env db_path {| anonymized_telemetry := false |} = inr client ->
  get_collection client "document_collection" = inr collection ->
  coll_query collection [vector] n_results ["documents"; "metadatas"; "distances"]
  = inr results ->
  has_distances results = true ->
  (documents results = None \/ documents results = Some []) ->
  exists msg,
    result_of (query_chroma G env query_text db_path embedding_model base_url
                            n_results threshold)
    = Returned (JObj [("error", JStr ("Error querying ChromaDB: " ++ msg))]).
Proof.
  intros Hembed Htruthy Hchroma Hsettings Hopen Hfound Hsearch Hhas Hdocs.
  unfold query_chroma. split_embedder. unfold_monad.
  rewrite Htruthy, Hchroma, Hsettings. cbn. rewrite Hopen, Hfound. cbn.
  unfold query_include. rewrite Hsearch. cbn.
  unfold process_results. rewrite Hhas. unfold has_distances in Hhas.
  destruct (distances results) as [[| dists more_dists] |]; try discriminate.
  unfold_monad. cbn.
  destruct Hdocs as [-> | ->]; cbn; eexists; reflexivity.
Qed.

Lemma distances_without_documents_is_error_witness :
  exists msg,
    result_of (Examples.ask Examples.globals_with_Settings
                            (Examples.healthy Worlds.bare_hits))
    = Returned (JObj [("error", JStr ("Error querying ChromaDB: " ++ msg))]).
Proof.
  apply (@distances_without_documents_is_error Examples.globals_with_Settings
           (Examples.healthy Worlds.bare_hits) "what is rust" "/db"
           "all-minilm" "http://localhost:11434" 3 0.8%float
           (JArr [JFloat 0.25%float; JFloat 0.5%float])
           {| get_collection :=
                fun _ => inr (Examples.collection (inr Worlds.bare_hits)) |}
           (Examples.collection (inr Worlds.bare_hits)) Worlds.bare_hits);
    try reflexivity.
  left. reflexivity.
Defined.

(** ** Not-a-number in the filter *)

Lemma leb_nan_left (x : float) : (nan <=? x)%float = false.
Proof.
  rewrite leb_spec. replace (Prim2SF nan) with S754_nan by reflexivity.
  reflexivity.
Qed.

Lemma leb_nan_right (x : float) : (x <=? nan)%float = false.
Proof.
  rewrite leb_spec. replace (Prim2SF nan) with S754_nan by reflexivity.
  unfold SFleb, SFcompare. destruct (Prim2SF x) as [| [|] | |]; reflexivity.
Qed.

Lemma sub_nan (x : float) : (x - nan)%float = nan.
Proof.
  rewrite <- (SF2Prim_Prim2SF (x - nan)%float). rewrite sub_spec.
  replace (Prim2SF nan) with S754_nan by reflexivity.
  unfold SF64sub, SFsub. destruct (Prim2SF x) as [| [|] | |]; reflexivity.
Qed.

(** A threshold that is not a number keeps nothing: whenever the part
    after the search returns, it returns no results and count 0. *)
Theorem nan_threshold_keeps_nothing (results : QueryResult) (v : json) :
  result_of (process_results results nan) = Returned v ->
  v = JObj [("results", JArr []); ("count", JInt 0)].
Proof.
  intros Hrun. destruct (process_results_items results nan Hrun)
    as (items & -> & Hitems).
  destruct items as [| item items]; [reflexivity |].
  apply Forall_inv in Hitems.
  destruct Hitems as (doc & metadata & dist & docs & metas & dists & more_docs
                      & more_metas & more_dists & i & _ & Hkeep & _).
  unfold ge_float in Hkeep. rewrite leb_nan_left in Hkeep. discriminate.
Qed.

Lemma nan_threshold_keeps_nothing_witness :
  JObj [("results", JArr []); ("count", JInt 0)]
  = JObj [("results", JArr []); ("count", JInt 0)].
Proof.
  apply (@nan_threshold_keeps_nothing Examples.three_hits).
  reflexivity.
Defined.

(** A candidate whose distance is not a number is never returned,
    whatever the threshold: no returned item has similarity NaN. *)
Theorem nan_similarity_never_returned (results : QueryResult)
    (threshold : float) (items : list json) (count : Z) (doc metadata : json) :
  result_of (process_results results threshold)
  = Returned (JObj [("results", JArr items); ("count", JInt count)]) ->
  ~ In (JObj [("document", doc); ("metadata", metadata);
              ("similarity", JFloat nan)]) items.
Proof.
  intros Hrun Hin.
  destruct (process_results_items results threshold Hrun)
    as (items' & Hshape & Hitems).
  injection Hshape as -> _.
  destruct (proj1 (Forall_forall _ _) Hitems _ Hin)
    as (doc' & metadata' & dist & docs & metas & dists & more_docs
        & more_metas & more_dists & i & Hitem & Hkeep & _).
  injection Hitem as _ _ Hnan.
  unfold ge_float in Hkeep. rewrite <- Hnan, leb_nan_right in Hkeep.
  discriminate.
Qed.

Lemma nan_similarity_never_returned_witness :
  ~ In (JObj [("document", JStr "a"); ("metadata", JNull);
              ("similarity", JFloat nan)])
       [JObj [("document", JStr "a");
              ("metadata", JObj [("page", JInt 1)]);
              ("similarity", JFloat 0.9%float)]].
Proof.
  apply (@nan_similarity_never_returned Examples.three_hits 0.8%float _ 1).
  reflexivity.
Defined.

(** If a distance is not a number, neither is its similarity. *)
Lemma similarity_of_nan : similarity_of nan = nan.
Proof. unfold similarity_of. apply sub_nan. Qed.

(** ** The command handler, command by command *)

Lemma print_result (m : M json) (v : json) (t : list event) :
  m = (Returned v, t) ->
  (result <- m ;; emit (EvStdout result)) = (Returned tt, (t ++ [EvStdout v])%list).
Proof. intros ->. reflexivity. Qed.

Lemma get_models_returns (env : Env) (base_url : string) (include_details : bool) :
  exists v, result_of (get_models_from_ollama env base_url include_details)
            = Returned v.
Proof. unfold get_models_from_ollama. run; eauto. Qed.

Lemma chat_returns (env : Env) (messages : json) (model : string)
    (context : json) (base_url : string) :
  exists v, result_of (send_chat_to_ollama env messages model context base_url)
            = Returned v.
Proof. unfold send_chat_to_ollama. run; eauto. Qed.

(** The handler needs a command.  Without one it raises [IndexError];
    with one that is not [query], [chat] or [models] it makes no call,
    prints nothing and ends normally. *)
Theorem handler_without_known_command (G : list string) (env : Env)
    (argv : list string) :
  ((List.length argv <= 1)%nat ->
   main G env argv = (Raised (IndexError "list index out of range"), []))
  /\ (forall command,
         nth_error argv 1 = Some command ->
         known_command command = false ->
         main G env argv = (Returned tt, [])).
Proof.
  split.
  - intros Hshort. unfold main, argv_at, Py.list_getitem.
    destruct argv as [| program [| command rest]]; cbn in *; try reflexivity.
    lia.
  - intros command Hcommand Hunknown. unfold main, argv_at, Py.list_getitem.
    rewrite Hcommand. unfold known_command in Hunknown.
    apply orb_false_elim in Hunknown. destruct Hunknown as [Hquery Hrest].
    apply orb_false_elim in Hrest. destruct Hrest as [Hchat Hmodels].
    cbn -[String.eqb]. rewrite Hquery, Hchat, Hmodels. reflexivity.
Qed.

Lemma handler_without_known_command_witness :
  main module_globals (Examples.command_line Examples.three_hits)
       ["api_proxy_helper.py"]
  = (Raised (IndexError "list index out of range"), [])
  /\ main module_globals (Examples.command_line Examples.three_hits)
          ["api_proxy_helper.py"; "embed"; "what is rust"]
     = (Returned tt, []).
Proof.
  split.
  - apply (proj1 (@handler_without_known_command module_globals
                    (Examples.command_line Examples.three_hits)
                    ["api_proxy_helper.py"])).
    cbn. lia.
  - apply (proj2 (@handler_without_known_command module_globals
                    (Examples.command_line Examples.three_hits)
                    ["api_proxy_helper.py"; "embed"; "what is rust"])
                 "embed");
      reflexivity.
Defined.

(** The [query] command parses its limit and then its threshold before
    it does anything else: a limit that [int] rejects, or a threshold
    that [float] rejects, ends the program with that exception, uncaught,
    before any request is made. *)
Theorem query_command_rejects_bad_numbers (G : list string) (env : Env)
    (program query_text db_path embedding_model base_url limit_text : string)
    (rest : list string) :
  (forall e,
      py_int env limit_text = inl e ->
      main G env (program :: "query" :: query_text :: db_path :: embedding_model
                          :: base_url :: limit_text :: rest)
      = (Raised e, []))
  /\ (forall n_results threshold_text more e,
         rest = threshold_text :: more ->
         py_int env limit_text = inr n_results ->
         py_float env threshold_text = inl e ->
         main G env (program :: "query" :: query_text :: db_path
                             :: embedding_model :: base_url :: limit_text :: rest)
         = (Raised e, [])).
Proof.
  split.
  - intros e Hint. unfold main, argv_at. cbn -[query_chroma].
    rewrite Hint. reflexivity.
  - intros n_results threshold_text more e -> Hint Hfloat.
    unfold main, argv_at. cbn -[query_chroma]. rewrite Hint. cbn -[query_chroma].
    rewrite Hfloat. reflexivity.
Qed.

Lemma query_command_rejects_bad_numbers_witness :
  main module_globals (Examples.command_line Examples.three_hits)
       ["api_proxy_helper.py"; "query"; "what is rust"; "/db"; "all-minilm";
        "http://localhost:11434"; "three"]
  = (Raised (ValueError "invalid literal for int()"), [])
  /\ main module_globals (Examples.command_line Examples.three_hits)
          ["api_proxy_helper.py"; "query"; "what is rust"; "/db"; "all-minilm";
           "http://localhost:11434"; "3"; "high"]
     = (Raised (ValueError "could not convert string to float"), []).
Proof.
  split.
  - apply (proj1 (@query_command_rejects_bad_numbers module_globals
                    (Examples.command_line Examples.three_hits)
                    "api_proxy_helper.py" "what is rust" "/db" "all-minilm"
                    "http://localhost:11434" "three" [])).
    reflexivity.
  - apply (proj2 (@query_command_rejects_bad_numbers module_globals
                    (Examples.command_line Examples.three_hits)
                    "api_proxy_helper.py" "what is rust" "/db" "all-minilm"
                    "http://localhost:11434" "3" ["high"])
                 3%Z "high" []);
      reflexivity.
Defined.

(** Once its two numbers parse, the [query] command always ends normally
    and prints exactly one value, last: the result of the similarity
    query, which is of the success shape or the error shape.  Arguments
    after the threshold are ignored. *)
Theorem query_command_prints_one_result (G : list string) (env : Env)
    (program query_text db_path embedding_model base_url : string)
    (limit_text threshold_text : string) (rest : list string)
    (n_results : Z) (threshold : float) :
  py_int env limit_text = inr n_results ->
  py_float env threshold_text = inr threshold ->
  exists v,
    main G env (program :: "query" :: query_text :: db_path :: embedding_model
                        :: base_url :: limit_text :: threshold_text :: rest)
    = (Returned tt,
       (trace_of (query_chroma G env query_text db_path embedding_model
                               base_url n_results threshold)
        ++ [EvStdout v])%list)
    /\ result_of (query_chroma G env query_text db_path embedding_model
                               base_url n_results threshold) = Returned v
    /\ (is_query_success v \/ is_error_result v).
Proof.
  intros Hint Hfloat.
  destruct (query_chroma_runs G env query_text db_path embedding_model base_url
                              n_results threshold)
    as (vector & v & k & _ & Hrun & Hshape).
  exists v. unfold main, argv_at. cbn -[query_chroma bind ret emit].
  rewrite !bind_ret. cbn -[query_chroma bind ret emit].
  rewrite Hint. cbn -[query_chroma bind ret emit]. rewrite !bind_ret.
  rewrite Hfloat. cbn -[query_chroma bind ret emit]. rewrite !bind_ret.
  rewrite (print_result Hrun), Hrun. cbn. auto.
Qed.

Lemma query_command_prints_one_result_witness :
  exists v,
    main module_globals (Examples.command_line Examples.three_hits)
         ["api_proxy_helper.py"; "query"; "what is rust"; "/db"; "all-minilm";
          "http://localhost:11434"; "3"; "0.8"]
    = (Returned tt,
       (trace_of (query_chroma module_globals
                               (Examples.command_line Examples.three_hits)
                               "what is rust" "/db" "all-minilm"
                               "http://localhost:11434" 3 0.8%float)
        ++ [EvStdout v])%list)
    /\ result_of (query_chroma module_globals
                               (Examples.command_line Examples.three_hits)
                               "what is rust" "/db" "all-minilm"
                               "http://localhost:11434" 3 0.8%float)
       = Returned v
    /\ (is_query_success v \/ is_error_result v).
Proof.
  apply (@query_command_prints_one_result module_globals
           (Examples.command_line Examples.three_hits) "api_proxy_helper.py"
           "what is rust" "/db" "all-minilm" "http://localhost:11434"
           "3" "0.8" [] 3%Z 0.8%float);
    reflexivity.
Defined.

(** The [chat] command with the context argument ["null"] (or empty)
    calls the relay without a context: the one request it posts has the
    model, the messages and the options and no [context] field; the
    program then prints what the relay returned and ends normally. *)
Theorem chat_command_without_context (G : list string) (env : Env)
    (program messages_json model context_json base_url : string)
    (rest : list string) (messages : json) :
  context_json = "null" \/ context_json = "" ->
  json_loads env messages_json = inr messages ->
  exists v,
    main G env (program :: "chat" :: messages_json :: model :: context_json
                        :: base_url :: rest)
    = (Returned tt,
       [EvPost (base_url ++ "/api/chat")
               (JObj [("model", JStr model);
                      ("messages", messages);
                      ("options", JObj [("temperature", JFloat 0.7%float);
                                        ("num_ctx", JInt 16384)])]);
        EvStdout v])
    /\ result_of (send_chat_to_ollama env messages model JNull base_url)
       = Returned v.
Proof.
  intros Hcontext Hmessages.
  destruct (chat_returns env messages model JNull base_url) as [v Hv].
  pose proof (chat_posts_once env messages model JNull base_url) as Hposts.
  destruct (send_chat_to_ollama env messages model JNull base_url)
    as [r t] eqn:Hrun.
  cbn in Hv, Hposts. subst r t. exists v.
  split; [| reflexivity].
  unfold main, argv_at.
  destruct Hcontext as [-> | ->];
    cbn -[send_chat_to_ollama bind ret emit];
    rewrite !bind_ret; cbn -[send_chat_to_ollama bind ret emit];
    rewrite Hmessages; cbn -[send_chat_to_ollama bind ret emit];
    rewrite !bind_ret; rewrite (print_result Hrun); reflexivity.
Qed.

Lemma chat_command_without_context_witness :
  exists v,
    main module_globals Worlds.chat_line
         ["api_proxy_helper.py"; "chat"; "[]"; "llama3"; "null";
          "http://localhost:11434"]
    = (Returned tt,
       [EvPost "http://localhost:11434/api/chat"
               (JObj [("model", JStr "llama3");
                      ("messages", JArr []);
                      ("options", JObj [("temperature", JFloat 0.7%float);
                                        ("num_ctx", JInt 16384)])]);
        EvStdout v])
    /\ result_of (send_chat_to_ollama Worlds.chat_line (JArr []) "llama3" JNull
                                      "http://localhost:11434")
       = Returned v.
Proof.
  apply (@chat_command_without_context module_globals Worlds.chat_line
           "api_proxy_helper.py" "[]" "llama3" "null" "http://localhost:11434"
           [] (JArr [])).
  - left. reflexivity.
  - reflexivity.
Defined.

(** The [chat] command does not catch argument faults, and they come
    before any request: a missing base URL raises [IndexError] even
    before the messages are parsed, and messages or a context that
    [json.loads] rejects end the program with that exception. *)
Theorem chat_command_argument_faults (G : list string) (env : Env)
    (program messages_json model context_json base_url : string)
    (rest : list string) :
  main G env [program; "chat"; messages_json; model; context_json]
  = (Raised (IndexError "list index out of range"), [])
  /\ (forall e,
         json_loads env messages_json = inl e ->
         main G env (program :: "chat" :: messages_json :: model
                             :: context_json :: base_url :: rest)
         = (Raised e, []))
  /\ (forall messages e,
         context_json <> "null" ->
         context_json <> "" ->
         json_loads env messages_json = inr messages ->
         json_loads env context_json = inl e ->
         main G env (program :: "chat" :: messages_json :: model
                             :: context_json :: base_url :: rest)
         = (Raised e, [])).
Proof.
  refine (conj _ (conj _ _)).
  - unfold main, argv_at. cbn -[String.eqb].
    destruct (negb (String.eqb context_json "null")); reflexivity.
  - intros e Hmessages. unfold main, argv_at. cbn -[String.eqb].
    destruct (negb (String.eqb context_json "null")); cbn;
      rewrite Hmessages; reflexivity.
  - intros messages e Hnull Hempty Hmessages Hcontext.
    apply String.eqb_neq in Hnull, Hempty.
    unfold main, argv_at. cbn -[String.eqb send_chat_to_ollama].
    rewrite Hnull. cbn -[String.eqb send_chat_to_ollama].
    rewrite Hmessages. cbn -[String.eqb send_chat_to_ollama].
    rewrite Hempty. cbn -[String.eqb send_chat_to_ollama].
    rewrite Hcontext. reflexivity.
Qed.

Lemma chat_command_argument_faults_witness :
  main module_globals Worlds.chat_line
       ["api_proxy_helper.py"; "chat"; "[]"; "llama3"; "{oops";
        "http://localhost:11434"]
  = (Raised (ValueError "Expecting value"), []).
Proof.
  apply (proj2 (proj2 (@chat_command_argument_faults module_globals
                         Worlds.chat_line "api_proxy_helper.py" "[]" "llama3"
                         "{oops" "http://localhost:11434" []))
               (JArr []) (ValueError "Expecting value"));
    try reflexivity; discriminate.
Defined.

(** The [models] command without a flag lists names only, prints what
    the lister returned and ends normally; and a flag whose lower-case
    form is not "true" behaves as no flag at all. *)
Theorem models_command_flag (G : list string) (env : Env)
    (program base_url : string) :
  (exists v,
      main G env [program; "models"; base_url]
      = (Returned tt,
         (trace_of (get_models_from_ollama env base_url false)
          ++ [EvStdout v])%list)
      /\ result_of (get_models_from_ollama env base_url false) = Returned v)
  /\ (forall flag rest,
         Py.lower flag <> "true" ->
         main G env (program :: "models" :: base_url :: flag :: rest)
         = main G env [program; "models"; base_url]).
Proof.
  split.
  - destruct (get_models_returns env base_url false) as [v Hv].
    destruct (get_models_from_ollama env base_url false) as [r t] eqn:Hrun.
    cbn in Hv. subst r. exists v. split; [| reflexivity].
    unfold main, argv_at. cbn -[get_models_from_ollama bind ret emit].
    rewrite !bind_ret. rewrite (print_result Hrun). reflexivity.
  - intros flag rest Hflag. apply String.eqb_neq in Hflag.
    unfold main, argv_at. cbn -[get_models_from_ollama String.eqb Py.lower].
    rewrite Hflag. reflexivity.
Qed.

Lemma models_command_flag_witness :
  main module_globals (Examples.tags_endpoint Examples.tags_body)
       ["api_proxy_helper.py"; "models"; "http://localhost:11434"; "yes"]
  = main module_globals (Examples.tags_endpoint Examples.tags_body)
         ["api_proxy_helper.py"; "models"; "http://localhost:11434"].
Proof.
  apply (proj2 (@models_command_flag module_globals
                  (Examples.tags_endpoint Examples.tags_body)
                  "api_proxy_helper.py" "http://localhost:11434")).
  discriminate.
Defined.
